(** * TerrainOffsetProperty (Source/DataSources/TerrainOffsetProperty.js)

    A shallow embedding of the property that lifts a point from the
    ellipsoid to the sampled terrain height, and the statements of its
    specification checked against it.

    JavaScript numbers are IEEE 754 binary64 values: they are modelled by
    Rocq's primitive floats, whose operations are the same ones.  Objects
    that the code compares with [===] carry a reference; the scene, its
    events, the globe's surface and the instance itself are mutable, so the
    methods are computations over a heap made of the scene's state and the
    instance's fields.  A computation that throws keeps the writes it made
    before throwing.  An argument that the caller may omit, as the result
    of [getValue], is an option, and of the vector a call returns it is the
    value that is modelled.  The source is modelled as it is written, with
    the blocks between [includeStart('debug')] and [includeEnd('debug')]
    present. *)

From Stdlib Require Import Floats ZArith List Bool Arith Lia.
Import ListNotations.

Set Implicit Arguments.

(** ** Completions *)

(** What a call can throw: a TypeError of the language (a property read off
    [undefined]) or a DeveloperError of the library's checks. *)
Inductive Error : Type :=
| TypeError
| DeveloperError.

(** A call returns a value or throws. *)
Inductive Completion (A : Type) : Type :=
| Normal (a : A)
| Throw (e : Error).

Arguments Throw {A} e.

(** ** Numbers and vectors *)

Module CesiumMath.

(** Modelled from the spec: the constant [CesiumMath.EPSILON10] of
    Core/Math is not under src/; the spec gives it as about 1e-10.  The
    literal is the binary64 value that JavaScript reads for
    [0.0000000001]. *)
Definition EPSILON10 : float := 0x1.b7cdfd9d7bdbbp-34%float.

(** [Math.max] on two numbers neither of which is NaN. *)
Definition max (a b : float) : float := if (a <? b)%float then b else a.

(** Modelled from the spec: [CesiumMath.equalsEpsilon] of Core/Math is not
    under src/.  The spec's "differs by less than the epsilon" is its
    first test, against the absolute tolerance; Core/Math accepts as well
    a difference within the relative tolerance of the larger magnitude. *)
Definition equalsEpsilon (left right relativeEpsilon absoluteEpsilon : float) : bool :=
  let absDiff := abs (left - right) in
  ((absDiff <=? absoluteEpsilon) ||
   (absDiff <=? relativeEpsilon * max (abs left) (abs right)))%float.

End CesiumMath.

Module Cartesian3.

Record t : Type := fromElements { x : float; y : float; z : float }.

(** Modelled from the spec: Core/Cartesian3 is not under src/.  [ZERO] is
    the spec's zero vector and origin. *)
Definition ZERO : t := fromElements 0 0 0.

(** Modelled from the spec: [Cartesian3.clone] (Core/Cartesian3, not under
    src/) copies the three components into the result object, or into a new
    object when no result is given; the value of the object it returns is
    what is modelled.  [None] is a result that is omitted. *)
Definition clone (cartesian : t) (result : option t) : t :=
  fromElements (x cartesian) (y cartesian) (z cartesian).

(** Modelled from the spec: [Cartesian3.equals] (Core/Cartesian3, not
    under src/), the spec's "yields exactly the origin" and "equal cached
    positions": the components are compared with [===], under which NaN
    differs from itself and -0 equals 0. *)
Definition equals (left right : t) : bool :=
  ((x left =? x right) && (y left =? y right) && (z left =? z right))%float.

(** Modelled from the spec: [Cartesian3.equalsEpsilon] (Core/Cartesian3,
    not under src/), the spec's "differs by less than the epsilon", taken
    component by component; the single tolerance of the call is both the
    relative and the absolute one. *)
Definition equalsEpsilon (left right : t) (relativeEpsilon : float) : bool :=
  CesiumMath.equalsEpsilon (x left) (x right) relativeEpsilon relativeEpsilon &&
  CesiumMath.equalsEpsilon (y left) (y right) relativeEpsilon relativeEpsilon &&
  CesiumMath.equalsEpsilon (z left) (z right) relativeEpsilon relativeEpsilon.

(** Modelled from the spec: the vector [cartesian] times [scalar], the
    spec's [normal * cachedTerrainHeight], is what [multiplyByScalar] of
    Core/Cartesian3 (not under src/) writes into its result. *)
Definition scaled (cartesian : t) (scalar : float) : t :=
  fromElements (x cartesian * scalar) (y cartesian * scalar) (z cartesian * scalar)%float.

(** Modelled from the spec: [Cartesian3.multiplyByScalar] (Core/Cartesian3,
    not under src/) writes the product into its result and returns it.  It
    has no default for the result: its check of the result throws a
    DeveloperError when none is given. *)
Definition multiplyByScalar (cartesian : t) (scalar : float) (result : option t)
    : Completion t :=
  match result with
  | Some _ => Normal (scaled cartesian scalar)
  | None => Throw DeveloperError
  end.

End Cartesian3.

Module Cartographic.

(** A geodetic coordinate: longitude, latitude and height. *)
Record t : Type := fromRadians { longitude : float; latitude : float; height : float }.

Definition ZERO : t := fromRadians 0 0 0.

End Cartographic.

(** ** Time, height references and properties *)

Record JulianDate : Type := { dayNumber : Z; secondsOfDay : float }.

Inductive HeightReference : Type :=
| NONE
| CLAMP_TO_GROUND
| RELATIVE_TO_GROUND.

Definition HeightReference_eqb (a b : HeightReference) : bool :=
  match a, b with
  | NONE, NONE | CLAMP_TO_GROUND, CLAMP_TO_GROUND
  | RELATIVE_TO_GROUND, RELATIVE_TO_GROUND => true
  | _, _ => false
  end.

(** A property is read at a time and may have no value there. *)
Definition Property (A : Type) : Type := JulianDate -> option A.

(** Modelled from the spec: [Property.getValueOrDefault] (DataSources/Property)
    is not under src/; a height-reference source is "retrievable at a given
    time, defaulting to a no offset mode when absent". *)
Definition getValueOrDefault {A : Type}
    (property : option (Property A)) (time : JulianDate) (valueDefault : A) : A :=
  match property with
  | Some p => match p time with Some v => v | None => valueDefault end
  | None => valueDefault
  end.

(** What [getValue] reads of the height and the extruded height it was
    given: their [heightReference], itself an optional property. *)
Record HeightSource : Type := { heightReference : option (Property HeightReference) }.

(** The caller's position function; [None] is [undefined]. *)
Definition PositionFunction : Type := JulianDate -> option Cartesian3.t.

(** ** The scene, the globe and the heap *)

(** Objects and closures are told apart by a reference. *)
Definition Ref : Type := nat.

(** Modelled from the spec: Core/Ellipsoid is not under src/; the geodetic
    math collaborator exposes "world-to-geodetic coordinate conversion" and
    "unit surface-normal computation at a world-space point", and is
    specified by that interface only. *)
Record Ellipsoid : Type := {
  cartesianToCartographic : Cartesian3.t -> Cartographic.t;
  geodeticSurfaceNormal : Cartesian3.t -> Cartesian3.t
}.

(** Modelled from the spec: Scene/Globe is not under src/; the globe
    exposes "a synchronous best-effort height lookup by geodetic coordinate
    returning an optional scalar".  Its surface's registrations are kept in
    the world below. *)
Record Globe : Type := {
  ellipsoid : Ellipsoid;
  getHeight : Cartographic.t -> option float
}.

(** A height callback held by the globe's surface: the closure
    [updateFunction] of [_updateClamping], that is the instance [that] and
    the [ellipsoid] it captured, and the coordinate it was registered for. *)
Record Registration : Type := {
  reg_handle : Ref;
  reg_owner : Ref;
  reg_cartographic : Cartographic.t;
  reg_ellipsoid : Ellipsoid
}.

Inductive SceneEvent : Type :=
| terrainProviderChanged
| morphComplete.

(** The calls that leave the component, in the order they are made. *)
Inductive Effect : Type :=
| AddedListener (e : SceneEvent) (k : Ref)
| RemovedListener (e : SceneEvent) (k : Ref)
| Registered (k : Ref)
| Cancelled (k : Ref)
| DefinitionChanged (owner : Ref).

(** The state of the scene an instance is bound to: its optional globe, the
    listeners of its two events, the height callbacks held by the surfaces
    of the globes it has had, the next unused reference and the log of
    effects.  The callbacks are kept in one list, so that a cancellation
    handle reaches its registration whatever the globe has become since. *)
Record World : Type := {
  globe : option Globe;
  terrainListeners : list Ref;
  morphListeners : list Ref;
  heightCallbacks : list Registration;
  nextRef : Ref;
  trace : list Effect
}.

(** The fields of an instance.  [self] is the identity of the object and
    [_scene] that of its scene; [_removeEventListener], [_removeModeListener]
    and [_removeCallbackFunc] hold the handles of what they release;
    [destroyed] is set once [destroyObject] has been applied to the object.
    The raises of its event [_definitionChanged] are the entries
    [DefinitionChanged self] of the log. *)
Record TerrainOffsetProperty : Type := {
  self : Ref;
  _scene : Ref;
  _height : option HeightSource;
  _extrudedHeight : option HeightSource;
  _getPosition : PositionFunction;
  _position : Cartesian3.t;
  _cartographicPosition : Cartographic.t;
  _normal : Cartesian3.t;
  _terrainHeight : float;
  _removeCallbackFunc : option Ref;
  _removeEventListener : Ref;
  _removeModeListener : Ref;
  destroyed : bool
}.

Record Heap : Type := { world : World; this : TerrainOffsetProperty }.

(** *** Field updates *)

Definition with_world (w : World) (h : Heap) : Heap :=
  {| world := w; this := this h |}.

Definition with_this (s : TerrainOffsetProperty) (h : Heap) : Heap :=
  {| world := world h; this := s |}.

Definition set_globe (g : option Globe) (w : World) : World :=
  {| globe := g; terrainListeners := terrainListeners w;
     morphListeners := morphListeners w; heightCallbacks := heightCallbacks w;
     nextRef := nextRef w; trace := trace w |}.

Definition set_listeners (e : SceneEvent) (l : list Ref) (w : World) : World :=
  {| globe := globe w;
     terrainListeners := match e with terrainProviderChanged => l | morphComplete => terrainListeners w end;
     morphListeners := match e with terrainProviderChanged => morphListeners w | morphComplete => l end;
     heightCallbacks := heightCallbacks w; nextRef := nextRef w; trace := trace w |}.

Definition set_heightCallbacks (l : list Registration) (w : World) : World :=
  {| globe := globe w; terrainListeners := terrainListeners w;
     morphListeners := morphListeners w; heightCallbacks := l;
     nextRef := nextRef w; trace := trace w |}.

Definition set_nextRef (n : Ref) (w : World) : World :=
  {| globe := globe w; terrainListeners := terrainListeners w;
     morphListeners := morphListeners w; heightCallbacks := heightCallbacks w;
     nextRef := n; trace := trace w |}.

Definition log (e : Effect) (w : World) : World :=
  {| globe := globe w; terrainListeners := terrainListeners w;
     morphListeners := morphListeners w; heightCallbacks := heightCallbacks w;
     nextRef := nextRef w; trace := trace w ++ [e] |}.

Definition set_position (p : Cartesian3.t) (s : TerrainOffsetProperty) : TerrainOffsetProperty :=
  {| self := self s; _scene := _scene s; _height := _height s;
     _extrudedHeight := _extrudedHeight s; _getPosition := _getPosition s;
     _position := p; _cartographicPosition := _cartographicPosition s;
     _normal := _normal s; _terrainHeight := _terrainHeight s;
     _removeCallbackFunc := _removeCallbackFunc s;
     _removeEventListener := _removeEventListener s;
     _removeModeListener := _removeModeListener s; destroyed := destroyed s |}.

Definition set_cartographicPosition (c : Cartographic.t) (s : TerrainOffsetProperty) : TerrainOffsetProperty :=
  {| self := self s; _scene := _scene s; _height := _height s;
     _extrudedHeight := _extrudedHeight s; _getPosition := _getPosition s;
     _position := _position s; _cartographicPosition := c;
     _normal := _normal s; _terrainHeight := _terrainHeight s;
     _removeCallbackFunc := _removeCallbackFunc s;
     _removeEventListener := _removeEventListener s;
     _removeModeListener := _removeModeListener s; destroyed := destroyed s |}.

Definition set_normal (n : Cartesian3.t) (s : TerrainOffsetProperty) : TerrainOffsetProperty :=
  {| self := self s; _scene := _scene s; _height := _height s;
     _extrudedHeight := _extrudedHeight s; _getPosition := _getPosition s;
     _position := _position s; _cartographicPosition := _cartographicPosition s;
     _normal := n; _terrainHeight := _terrainHeight s;
     _removeCallbackFunc := _removeCallbackFunc s;
     _removeEventListener := _removeEventListener s;
     _removeModeListener := _removeModeListener s; destroyed := destroyed s |}.

Definition set_terrainHeight (v : float) (s : TerrainOffsetProperty) : TerrainOffsetProperty :=
  {| self := self s; _scene := _scene s; _height := _height s;
     _extrudedHeight := _extrudedHeight s; _getPosition := _getPosition s;
     _position := _position s; _cartographicPosition := _cartographicPosition s;
     _normal := _normal s; _terrainHeight := v;
     _removeCallbackFunc := _removeCallbackFunc s;
     _removeEventListener := _removeEventListener s;
     _removeModeListener := _removeModeListener s; destroyed := destroyed s |}.

Definition set_removeCallbackFunc (k : option Ref) (s : TerrainOffsetProperty) : TerrainOffsetProperty :=
  {| self := self s; _scene := _scene s; _height := _height s;
     _extrudedHeight := _extrudedHeight s; _getPosition := _getPosition s;
     _position := _position s; _cartographicPosition := _cartographicPosition s;
     _normal := _normal s; _terrainHeight := _terrainHeight s;
     _removeCallbackFunc := k;
     _removeEventListener := _removeEventListener s;
     _removeModeListener := _removeModeListener s; destroyed := destroyed s |}.

Definition set_destroyed (b : bool) (s : TerrainOffsetProperty) : TerrainOffsetProperty :=
  {| self := self s; _scene := _scene s; _height := _height s;
     _extrudedHeight := _extrudedHeight s; _getPosition := _getPosition s;
     _position := _position s; _cartographicPosition := _cartographicPosition s;
     _normal := _normal s; _terrainHeight := _terrainHeight s;
     _removeCallbackFunc := _removeCallbackFunc s;
     _removeEventListener := _removeEventListener s;
     _removeModeListener := _removeModeListener s; destroyed := b |}.

(** ** Computations over the heap *)

(** A method body: from a heap, a completion and the heap it leaves. *)
Definition M (A : Type) : Type := Heap -> Completion A * Heap.

Definition ret {A : Type} (a : A) : M A := fun h => (Normal a, h).

Definition bind {A B : Type} (m : M A) (f : A -> M B) : M B :=
  fun h =>
    match m h with
    | (Normal a, h') => f a h'
    | (Throw e, h') => (Throw e, h')
    end.

Definition throw {A : Type} (e : Error) : M A := fun h => (Throw e, h).

(** The completion of a call that does not touch the heap. *)
Definition lift {A : Type} (c : Completion A) : M A := fun h => (c, h).

Definition getThis : M TerrainOffsetProperty := fun h => (Normal (this h), h).

Definition getWorld : M World := fun h => (Normal (world h), h).

Definition modifyThis (f : TerrainOffsetProperty -> TerrainOffsetProperty) : M unit :=
  fun h => (Normal tt, with_this (f (this h)) h).

Definition modifyWorld (f : World -> World) : M unit :=
  fun h => (Normal tt, with_world (f (world h)) h).

Declare Scope js_scope.
Delimit Scope js_scope with js.
Notation "x <- m ;; k" := (bind m (fun x => k))
  (at level 61, m at next level, right associativity) : js_scope.
Notation "m ;; k" := (bind m (fun _ => k))
  (at level 61, right associativity) : js_scope.
Local Open Scope js_scope.

(** ** The collaborators *)

Definition listenersOf (e : SceneEvent) (w : World) : list Ref :=
  match e with
  | terrainProviderChanged => terrainListeners w
  | morphComplete => morphListeners w
  end.

(** Modelled from the spec: [Event.addEventListener] (Core/Event) is not
    under src/; the scene exposes its two notifications, a subscription
    yields a handle that releases it.  The handle is the reference of the
    listener. *)
Definition addEventListener (e : SceneEvent) (w : World) : Ref * World :=
  let k := nextRef w in
  (k, log (AddedListener e k)
        (set_nextRef (S k) (set_listeners e (listenersOf e w ++ [k]) w))).

(** Modelled from the spec: the function [Event.addEventListener] returns
    (Core/Event, not under src/), which takes the listener off the event;
    taking off a listener that is no longer there changes nothing else. *)
Definition removeEventListener (e : SceneEvent) (k : Ref) : M unit :=
  modifyWorld (fun w =>
    log (RemovedListener e k)
      (set_listeners e (filter (fun l => negb (l =? k)) (listenersOf e w)) w)).

(** Modelled from the spec: [surface.updateHeight] (Scene/QuadtreePrimitive)
    is not under src/; it is the "asynchronous height-refinement
    registration function taking a geodetic coordinate and a completion
    callback, returning a cancellation handle".  [owner] and [ell] are what
    the callback closes over. *)
Definition updateHeight (cartographic : Cartographic.t) (owner : Ref) (ell : Ellipsoid) : M Ref :=
  fun h =>
    let w := world h in
    let k := nextRef w in
    let r := {| reg_handle := k; reg_owner := owner;
                reg_cartographic := cartographic; reg_ellipsoid := ell |} in
    (Normal k,
     with_world (log (Registered k)
                   (set_nextRef (S k)
                      (set_heightCallbacks (heightCallbacks w ++ [r]) w))) h).

(** Modelled from the spec: the cancellation handle of a registration
    (Scene/QuadtreePrimitive, not under src/): calling it takes the
    registration off the surface. *)
Definition removeFunc (k : Ref) : M unit :=
  modifyWorld (fun w =>
    log (Cancelled k)
      (set_heightCallbacks
         (filter (fun r => negb (reg_handle r =? k)) (heightCallbacks w)) w)).

(** Modelled from the spec: [Check.defined] and [Check.typeOf.func]
    (Core/Check) are not under src/; a missing collaborator at construction
    is "a programmer error reported immediately". *)
Definition Check_defined {A : Type} (v : option A) : Completion A :=
  match v with
  | Some a => Normal a
  | None => Throw DeveloperError
  end.

(** Modelled from the spec: Core/destroyObject is not under src/.  The spec
    has teardown mark the instance as destroyed, has a destroyed instance
    report itself as such, and forbids its reuse: [destroyObject] replaces
    every function-valued property of the object, own or inherited, by
    [throwOnDestroyed], which throws a DeveloperError, and then
    [isDestroyed] by a function that returns true.  The flag [destroyed]
    stands for that replacement. *)
Definition destroyObject : M unit := modifyThis (set_destroyed true).

(** Modelled from the spec: the function [destroyObject] puts in the place
    of every method (Core/destroyObject, not under src/); a destroyed
    instance "must not be reused". *)
Definition throwOnDestroyed {A : Type} : M A := throw DeveloperError.

(** Modelled from the spec: what a call [this.f(...)] of a method or of a
    function-valued field runs once Core/destroyObject (not under src/) may
    have been applied: the function itself on a live instance,
    [throwOnDestroyed] on a destroyed one. *)
Definition method {A : Type} (body : M A) : M A :=
  fun h => if destroyed (this h) then throwOnDestroyed h else body h.

(** ** The source *)

(** The constructor (lines 38-66).  The new object takes the next
    reference; its cached position and normal are [new Cartesian3()], its
    geodetic coordinate [new Cartographic()], its terrain height 0 and it
    owns no registration.  The two listeners are the closures that call
    [that._updateClamping()]. *)
Definition construct (scene : option Ref) (height extrudedHeight : option HeightSource)
    (getPosition : option PositionFunction) (w : World)
    : Completion TerrainOffsetProperty * World :=
  match Check_defined scene with
  | Throw e => (Throw e, w)
  | Normal scene' =>
  match Check_defined height with
  | Throw e => (Throw e, w)
  | Normal height' =>
  match Check_defined extrudedHeight with
  | Throw e => (Throw e, w)
  | Normal extrudedHeight' =>
  match Check_defined getPosition with
  | Throw e => (Throw e, w)
  | Normal getPosition' =>
      let that := nextRef w in
      let w0 := set_nextRef (S that) w in
      let (k1, w1) := addEventListener terrainProviderChanged w0 in
      let (k2, w2) := addEventListener morphComplete w1 in
      (Normal {| self := that;
                 _scene := scene';
                 _height := Some height';
                 _extrudedHeight := Some extrudedHeight';
                 _getPosition := getPosition';
                 _position := Cartesian3.ZERO;
                 _cartographicPosition := Cartographic.ZERO;
                 _normal := Cartesian3.ZERO;
                 _terrainHeight := 0%float;
                 _removeCallbackFunc := None;
                 _removeEventListener := k1;
                 _removeModeListener := k2;
                 destroyed := false |}, w2)
  end end end end.

(** [isConstant] (lines 76-80). *)
Definition isConstant : bool := false.

(** [_updateClamping] (lines 98-129). *)
Definition _updateClamping : M unit :=
  w <- getWorld ;;
  match globe w with
  | None => modifyThis (set_terrainHeight 0%float)
  | Some globe =>
      let ellipsoid := ellipsoid globe in
      s <- getThis ;;
      let position := _position s in
      match _removeCallbackFunc s with
      | Some k => method (removeFunc k)
      | None => ret tt
      end ;;
      let cartographicPosition := cartesianToCartographic ellipsoid position in
      modifyThis (set_cartographicPosition cartographicPosition) ;;
      k <- updateHeight cartographicPosition (self s) ellipsoid ;;
      modifyThis (set_removeCallbackFunc (Some k)) ;;
      match getHeight globe cartographicPosition with
      | Some height => modifyThis (set_terrainHeight height)
      | None => modifyThis (set_terrainHeight 0%float)
      end
  end.

(** [updateFunction] (lines 116-120), the callback of registration [r]:
    [that] is the owner of [r] and [ellipsoid] the one [r] captured.  The
    heap holds one instance; the callback of another one leaves it alone. *)
Definition updateFunction (r : Registration) (clampedPosition : Cartesian3.t) : M unit :=
  s <- getThis ;;
  if reg_owner r =? self s then
    let carto := cartesianToCartographic (reg_ellipsoid r) clampedPosition in
    modifyThis (set_terrainHeight (Cartographic.height carto)) ;;
    modifyWorld (log (DefinitionChanged (self s)))
  else ret tt.

(** The height reference [getValue] resolves for the base height at a time
    (lines 137-143). *)
Definition heightReferenceAt (s : TerrainOffsetProperty) (time : JulianDate) : HeightReference :=
  match _height s with
  | Some heightProperty => getValueOrDefault (heightReference heightProperty) time NONE
  | None => NONE
  end.

(** The one it resolves for the extruded height (lines 138-146). *)
Definition extrudedHeightReferenceAt (s : TerrainOffsetProperty) (time : JulianDate) : HeightReference :=
  match _extrudedHeight s with
  | Some extrudedHeightProperty =>
      getValueOrDefault (heightReference extrudedHeightProperty) time NONE
  | None => NONE
  end.

(** The test of line 148: no ground offset is needed. *)
Definition noOffset (s : TerrainOffsetProperty) (time : JulianDate) : bool :=
  HeightReference_eqb (heightReferenceAt s time) NONE &&
  negb (HeightReference_eqb (extrudedHeightReferenceAt s time) RELATIVE_TO_GROUND).

(** [getValue] (lines 136-167).  [result] is the output buffer of the
    caller, [None] when it is omitted; the value returned is the value of
    the object returned. *)
Definition getValue (time : JulianDate) (result : option Cartesian3.t) : M Cartesian3.t :=
  s <- getThis ;;
  if noOffset s time then ret (Cartesian3.clone Cartesian3.ZERO result)
  else
    position <- method (ret (_getPosition s time)) ;;
    match position with
    | None => ret (Cartesian3.clone Cartesian3.ZERO result)
    | Some position =>
        if Cartesian3.equals position Cartesian3.ZERO
        then ret (Cartesian3.clone Cartesian3.ZERO result)
        else if Cartesian3.equalsEpsilon (_position s) position CesiumMath.EPSILON10
        then lift (Cartesian3.multiplyByScalar (_normal s) (_terrainHeight s) result)
        else
          modifyThis (set_position (Cartesian3.clone position (Some (_position s)))) ;;
          method _updateClamping ;;
          w <- getWorld ;;
          match globe w with
          | None => throw TypeError
          | Some globe =>
              let normal := geodeticSurfaceNormal (ellipsoid globe) position in
              modifyThis (set_normal normal) ;;
              s' <- getThis ;;
              lift (Cartesian3.multiplyByScalar normal (_terrainHeight s') result)
          end
    end.

(** Modelled from the spec: [Property.equals] (DataSources/Property) is not
    under src/; on the cached positions of two instances, the spec's "equal
    cached positions", it is [===] on the two objects, or else the left
    one's [equals].  Each instance allocates its [_position] itself
    (line 51) and only ever writes into it (line 161), so the two objects
    are one exactly when the instances are. *)
Definition Property_equals (left right : TerrainOffsetProperty) : bool :=
  (self left =? self right) || Cartesian3.equals (_position left) (_position right).

(** [equals] (lines 176-181); [None] is an [other] that is missing or not
    an instance of TerrainOffsetProperty. *)
Definition equals (this' : TerrainOffsetProperty) (other : option TerrainOffsetProperty) : bool :=
  match other with
  | None => false
  | Some other' =>
      (self this' =? self other') ||
      ((_scene this' =? _scene other') && Property_equals this' other')
  end.

(** [isDestroyed] (lines 183-185), and what [destroyObject] puts in its
    place. *)
Definition isDestroyed : M bool :=
  fun h => if destroyed (this h) then (Normal true, h) else (Normal false, h).

(** [destroy] (lines 187-194). *)
Definition destroy : M unit :=
  s <- getThis ;;
  method (removeEventListener terrainProviderChanged (_removeEventListener s)) ;;
  method (removeEventListener morphComplete (_removeModeListener s)) ;;
  match _removeCallbackFunc s with
  | Some k => method (removeFunc k)
  | None => ret tt
  end ;;
  destroyObject.

(** ** The life of an instance *)

(** What can happen to an instance once it is constructed: a call of
    [getValue], with or without a result, one of the two scene events being
    raised, the surface calling back the registration [k] with a clamped
    position, the scene's globe being attached, replaced or taken away, and
    [destroy]. *)
Inductive Action : Type :=
| GetValue (time : JulianDate) (result : option Cartesian3.t)
| RaiseSceneEvent (e : SceneEvent)
| HeightCallback (k : Ref) (clampedPosition : Cartesian3.t)
| SetGlobe (g : option Globe)
| Destroy.

(** Raising a scene event runs the listener of lines 60-65 if it is still
    subscribed. *)
Definition raiseSceneEvent (e : SceneEvent) : M unit :=
  s <- getThis ;;
  w <- getWorld ;;
  let k := match e with
           | terrainProviderChanged => _removeEventListener s
           | morphComplete => _removeModeListener s
           end in
  if existsb (Nat.eqb k) (listenersOf e w) then method _updateClamping else ret tt.

(** The surface calls back a registration it still holds. *)
Definition heightCallback (k : Ref) (clampedPosition : Cartesian3.t) : M unit :=
  w <- getWorld ;;
  match find (fun r => reg_handle r =? k) (heightCallbacks w) with
  | Some r => updateFunction r clampedPosition
  | None => ret tt
  end.

Definition step (a : Action) : M unit :=
  match a with
  | GetValue time result => method (getValue time result) ;; ret tt
  | RaiseSceneEvent e => raiseSceneEvent e
  | HeightCallback k clampedPosition => heightCallback k clampedPosition
  | SetGlobe g => modifyWorld (set_globe g)
  | Destroy => method destroy
  end.

Fixpoint run (acts : list Action) (h : Heap) : Heap :=
  match acts with
  | [] => h
  | a :: acts' => run acts' (snd (step a h))
  end.

(** ** Observations *)

(** The handles of the registrations in [l] whose callback belongs to the
    instance [o]. *)
Definition owned (o : Ref) (l : list Registration) : list Ref :=
  map reg_handle (filter (fun r => reg_owner r =? o) l).

(** The registrations of the instance that the surface still holds. *)
Definition pending (h : Heap) : list Ref :=
  owned (self (this h)) (heightCallbacks (world h)).

Definition isDefinitionChanged (o : Ref) (e : Effect) : bool :=
  match e with
  | DefinitionChanged o' => o' =? o
  | _ => false
  end.

(** How many times the instance's change notifier was raised so far. *)
Definition notifications (h : Heap) : nat :=
  length (filter (isDefinitionChanged (self (this h))) (trace (world h))).

Definition isRegistered (e : Effect) : bool :=
  match e with
  | Registered _ => true
  | _ => false
  end.

(** How many height-refinement registrations were issued so far. *)
Definition registrations (h : Heap) : nat :=
  length (filter isRegistered (trace (world h))).

(** Whether the surface still holds a registration [k] whose callback
    belongs to the instance. *)
Definition holds (h : Heap) (k : Ref) : bool :=
  match find (fun r => reg_handle r =? k) (heightCallbacks (world h)) with
  | Some r => reg_owner r =? self (this h)
  | None => false
  end.

(** What the instance owns on the surface: nothing once destroyed, and
    otherwise exactly the registration whose handle it keeps, if it keeps
    one. *)
Definition owns_what_it_keeps (h : Heap) : Prop :=
  pending h =
    if destroyed (this h) then []
    else match _removeCallbackFunc (this h) with
         | Some k => [k]
         | None => []
         end.

(** The guards a requested position [p] has passed when [getValue] comes
    to compare it with the cached one: the mode asks for an offset, the
    position function gave [p], and [p] is not the origin. *)
Definition passesGuards (s : TerrainOffsetProperty) (time : JulianDate) (p : Cartesian3.t) : Prop :=
  noOffset s time = false /\
  _getPosition s time = Some p /\
  Cartesian3.equals p Cartesian3.ZERO = false.

(** *** Observations on a whole life *)

Definition SceneEvent_eqb (a b : SceneEvent) : bool :=
  match a, b with
  | terrainProviderChanged, terrainProviderChanged
  | morphComplete, morphComplete => true
  | _, _ => false
  end.

(** The handle an instance keeps for its listener on the event [e]
    (lines 60 and 63). *)
Definition listenerOf (e : SceneEvent) (s : TerrainOffsetProperty) : Ref :=
  match e with
  | terrainProviderChanged => _removeEventListener s
  | morphComplete => _removeModeListener s
  end.

(** Whether the instance's listener is on the event [e]. *)
Definition subscribed (e : SceneEvent) (h : Heap) : bool :=
  existsb (Nat.eqb (listenerOf e (this h))) (listenersOf e (world h)).

Definition isRemovedListener (e : SceneEvent) (k : Ref) (eff : Effect) : bool :=
  match eff with
  | RemovedListener e' k' => SceneEvent_eqb e' e && (k' =? k)
  | _ => false
  end.

(** How many times the listener [k] was taken off the event [e] so far. *)
Definition releases (e : SceneEvent) (k : Ref) (h : Heap) : nat :=
  length (filter (isRemovedListener e k) (trace (world h))).

Definition isCancelled (eff : Effect) : bool :=
  match eff with
  | Cancelled _ => true
  | _ => false
  end.

(** How many height-refinement registrations were cancelled so far. *)
Definition cancellations (h : Heap) : nat :=
  length (filter isCancelled (trace (world h))).

Definition isDestroy (a : Action) : bool :=
  match a with
  | Destroy => true
  | _ => false
  end.

(** What no method assigns: the identity of the instance, its scene, its
    two height sources, its position function and the handles of its two
    listeners. *)
Definition same_configuration (s0 s : TerrainOffsetProperty) : Prop :=
  self s = self s0 /\
  _scene s = _scene s0 /\
  _height s = _height s0 /\
  _extrudedHeight s = _extrudedHeight s0 /\
  _getPosition s = _getPosition s0 /\
  _removeEventListener s = _removeEventListener s0 /\
  _removeModeListener s = _removeModeListener s0.

(** What holds of a heap [h] reached from the heap [h0] the constructor
    left: the instance's listeners are on the two events exactly as long as
    it is not destroyed; each was taken off once if it is destroyed and not
    at all otherwise; the configuration is the one it was constructed
    with. *)
Definition kept (h0 h : Heap) : Prop :=
  (forall e, subscribed e h = negb (destroyed (this h))) /\
  (forall e, releases e (listenerOf e (this h0)) h =
             releases e (listenerOf e (this h0)) h0 +
             if destroyed (this h) then 1 else 0) /\
  same_configuration (this h0) (this h).

(** Every registration issued since the heap [h0] is cancelled or pending,
    and what is pending is what the instance keeps. *)
Definition accounted (h0 h : Heap) : Prop :=
  owns_what_it_keeps h /\
  registrations h + cancellations h0 =
    registrations h0 + cancellations h + length (pending h).

(** A position whose three components are finite numbers. *)
Definition isFinite (p : Cartesian3.t) : bool :=
  is_finite (Cartesian3.x p) && is_finite (Cartesian3.y p) && is_finite (Cartesian3.z p).

(** A position one of whose components is NaN. *)
Definition hasNaN (p : Cartesian3.t) : bool :=
  is_nan (Cartesian3.x p) || is_nan (Cartesian3.y p) || is_nan (Cartesian3.z p).

(** The handles of the callbacks on the surface are all below the next
    unused reference. *)
Definition fresh_handles (w : World) : Prop :=
  Forall (fun r => reg_handle r < nextRef w) (heightCallbacks w).

(** ** Sample collaborators, for running the code *)

Module Sample.

Definition ellipsoid1 : Ellipsoid :=
  {| cartesianToCartographic := fun p =>
       Cartographic.fromRadians (Cartesian3.y p) (Cartesian3.z p) (Cartesian3.x p - 1)%float;
     geodeticSurfaceNormal := fun _ => Cartesian3.fromElements 1 0 0 |}.

(** A globe whose resident terrain is 5 high everywhere. *)
Definition globe5 : Globe :=
  {| ellipsoid := ellipsoid1; getHeight := fun _ => Some 5%float |}.

(** A globe with no terrain resident yet. *)
Definition globeEmpty : Globe :=
  {| ellipsoid := ellipsoid1; getHeight := fun _ => None |}.

(** A scene with nothing subscribed and nothing registered. *)
Definition emptyWorld (g : option Globe) : World :=
  {| globe := g; terrainListeners := []; morphListeners := [];
     heightCallbacks := []; nextRef := 0; trace := [] |}.

(** A height that is relative to the ground until day 2451546 and has no
    height reference from then on. *)
Definition switching : HeightSource :=
  {| heightReference := Some (fun time =>
       if (dayNumber time <? 2451546)%Z then Some RELATIVE_TO_GROUND else Some NONE) |}.

Definition noReference : HeightSource := {| heightReference := None |}.

(** A point that starts at (1, 0, 0) and drifts along z with the seconds
    of the day. *)
Definition drifting : PositionFunction :=
  fun time => Some (Cartesian3.fromElements 1 0 (secondsOfDay time)).

(** A point that stays 2^-35, about 2.9e-11, off the origin. *)
Definition nearOrigin : PositionFunction :=
  fun _ => Some (Cartesian3.fromElements 0x1p-35%float 0 0).

Definition epoch : JulianDate := {| dayNumber := 2451545; secondsOfDay := 0%float |}.

(** 2^-35 seconds later. *)
Definition soon : JulianDate := {| dayNumber := 2451545; secondsOfDay := 0x1p-35%float |}.

(** One second later. *)
Definition afterwards : JulianDate := {| dayNumber := 2451545; secondsOfDay := 1%float |}.

Definition twoDaysLater : JulianDate := {| dayNumber := 2451547; secondsOfDay := 0%float |}.

(** An output buffer of the caller. *)
Definition scratch : option Cartesian3.t := Some (Cartesian3.fromElements 9 9 9).

(** The heap right after [new TerrainOffsetProperty(scene, switching,
    noReference, drifting)] on [emptyWorld g]: the object is 0 and its two
    listeners are 1 and 2. *)
Definition constructed (g : option Globe) : Heap :=
  {| world := {| globe := g; terrainListeners := [1]; morphListeners := [2];
                 heightCallbacks := []; nextRef := 3;
                 trace := [AddedListener terrainProviderChanged 1;
                           AddedListener morphComplete 2] |};
     this := {| self := 0; _scene := 100; _height := Some switching;
                _extrudedHeight := Some noReference;
                _getPosition := drifting; _position := Cartesian3.ZERO;
                _cartographicPosition := Cartographic.ZERO;
                _normal := Cartesian3.ZERO; _terrainHeight := 0%float;
                _removeCallbackFunc := None; _removeEventListener := 1;
                _removeModeListener := 2; destroyed := false |} |}.

(** That heap after one evaluation at [epoch] with [globe5] attached: the
    cached position is (1, 0, 0), the cached normal (1, 0, 0), the cached
    height 5 and the registration 3 is pending. *)
Definition evaluated : Heap := snd (getValue epoch scratch (constructed (Some globe5))).

(** The same with the globe taken away from the scene afterwards. *)
Definition deserted : Heap := snd (step (SetGlobe None) evaluated).

(** A position function that has lost its point: the x component is NaN. *)
Definition lost : PositionFunction :=
  fun _ => Some (Cartesian3.fromElements nan 0 0).

(** The heap right after construction, as [constructed], for a position
    function of one's choice. *)
Definition constructedWith (getPosition : PositionFunction) (g : option Globe) : Heap :=
  {| world := world (constructed g);
     this := {| self := 0; _scene := 100; _height := Some switching;
                _extrudedHeight := Some noReference;
                _getPosition := getPosition; _position := Cartesian3.ZERO;
                _cartographicPosition := Cartographic.ZERO;
                _normal := Cartesian3.ZERO; _terrainHeight := 0%float;
                _removeCallbackFunc := None; _removeEventListener := 1;
                _removeModeListener := 2; destroyed := false |} |}.

(** A life: two evaluations a second apart, the second without a result,
    a terrain change, a refinement callback, [destroy], an evaluation and
    [destroy] again. *)
Definition life : list Action :=
  [GetValue epoch scratch; GetValue afterwards None;
   RaiseSceneEvent terrainProviderChanged;
   HeightCallback 5 (Cartesian3.fromElements 8 0 0); Destroy;
   GetValue epoch scratch; Destroy].

(** The beginning of a life: an evaluation, then the globe replaced by one
    with no terrain resident. *)
Definition youth : list Action :=
  [GetValue epoch scratch; SetGlobe (Some globeEmpty)].

(** A point ten thousand kilometres from the centre that drifts along x
    with the seconds of the day. *)
Definition far : PositionFunction :=
  fun time => Some (Cartesian3.fromElements (10000000 + secondsOfDay time) 0 0).

(** 2^-11 seconds, about 4.9e-4, after the epoch. *)
Definition aBitLater : JulianDate :=
  {| dayNumber := 2451545; secondsOfDay := 0x1p-11%float |}.

(** A new instance at the far point, evaluated once at the epoch with
    [globe5] attached: the cached position is (10^7, 0, 0). *)
Definition farEvaluated : Heap :=
  snd (getValue epoch scratch (constructedWith far (Some globe5))).

End Sample.

(** * Properties *)

(** ** Numbers *)

Lemma clone_id (p : Cartesian3.t) (result : option Cartesian3.t) :
  Cartesian3.clone p result = p.
Proof. destruct p; reflexivity. Qed.

(** [|0 - v| = |v|] for every binary64 value, NaN, zeros and infinities
    included. *)
Lemma abs_zero_sub (v : float) : abs (0 - v) = abs v.
Proof.
  apply Prim2SF_inj.
  rewrite !abs_spec, sub_spec.
  change (Prim2SF 0) with (S754_zero false).
  unfold SF64sub.
  destruct (Prim2SF v) as [s | s | | s m e]; try destruct s; reflexivity.
Qed.

(** A component no larger than the tolerance in magnitude passes the
    absolute test against 0. *)
Lemma equalsEpsilon_zero (v eps : float) :
  (abs v <=? eps)%float = true ->
  CesiumMath.equalsEpsilon 0 v eps eps = true.
Proof.
  intros Hv. unfold CesiumMath.equalsEpsilon.
  rewrite abs_zero_sub, Hv. reflexivity.
Qed.

(** A difference below the tolerance is within it. *)
Lemma ltb_leb (a b : float) : (a <? b)%float = true -> (a <=? b)%float = true.
Proof.
  rewrite ltb_spec, leb_spec. unfold SFltb, SFleb.
  destruct (SFcompare (Prim2SF a) (Prim2SF b)) as [[ | | ] | ]; congruence.
Qed.

(** ** Running the monad *)

Arguments Cartesian3.equals : simpl never.
Arguments Cartesian3.equalsEpsilon : simpl never.
Arguments Cartesian3.multiplyByScalar : simpl never.
Arguments Cartesian3.scaled : simpl never.
Arguments Cartesian3.clone : simpl never.
Arguments noOffset : simpl never.

Ltac js_unfold :=
  unfold raiseSceneEvent, heightCallback, getValue, destroy, isDestroyed,
    _updateClamping, updateFunction, method, throwOnDestroyed, destroyObject,
    updateHeight, removeFunc, removeEventListener, bind, ret, throw, lift,
    getThis, getWorld, modifyThis, modifyWorld in *.

Ltac open_heap h :=
  let w := fresh "w" in
  let s := fresh "s" in
  destruct h as [w s]; destruct w; destruct s; simpl in *.

(** ** Registrations and the log *)

Lemma owned_app (o : Ref) (l1 l2 : list Registration) :
  owned o (l1 ++ l2) = owned o l1 ++ owned o l2.
Proof. unfold owned. rewrite filter_app, map_app. reflexivity. Qed.

(** Cancelling a handle takes it, and nothing else, off the registrations of
    an owner. *)
Lemma owned_cancel (o k : Ref) (l : list Registration) :
  owned o (filter (fun r => negb (reg_handle r =? k)) l) =
  filter (fun k' => negb (k' =? k)) (owned o l).
Proof.
  unfold owned. induction l as [ | r l IH]; simpl; [reflexivity | ].
  destruct (reg_handle r =? k) eqn:Hk, (reg_owner r =? o) eqn:Ho; simpl;
    rewrite ?Ho, ?Hk; simpl; rewrite IH; reflexivity.
Qed.

Lemma owned_snoc (o : Ref) (l : list Registration) (r : Registration) :
  owned o (l ++ [r]) =
  owned o l ++ (if reg_owner r =? o then [reg_handle r] else []).
Proof. rewrite owned_app. unfold owned. simpl. destruct (reg_owner r =? o); reflexivity. Qed.

Lemma count_snoc {A : Type} (f : A -> bool) (l : list A) (a : A) :
  length (filter f (l ++ [a])) = length (filter f l) + (if f a then 1 else 0).
Proof.
  rewrite filter_app, length_app. simpl. destruct (f a); reflexivity.
Qed.

(** ** The clamping recomputation *)

(** C7.  The synchronous postcondition of the clamping recomputation on a
    live instance.  With no globe attached it sets the cached terrain height
    to 0, touches nothing else and registers nothing.  With a globe attached
    it returns normally having registered one refinement for the geodetic
    coordinate of the cached position, whose handle it keeps and which the
    surface holds, and the cached terrain height is what the best-effort
    lookup yields for that coordinate, or 0 if it yields nothing. *)
Theorem updateClamping_postcondition (h : Heap) :
  destroyed (this h) = false ->
  match globe (world h) with
  | None =>
      _updateClamping h = (Normal tt, with_this (set_terrainHeight 0%float (this h)) h)
  | Some g =>
      let carto := cartesianToCartographic (ellipsoid g) (_position (this h)) in
      let k := nextRef (world h) in
      exists h',
        _updateClamping h = (Normal tt, h') /\
        registrations h' = S (registrations h) /\
        In k (pending h') /\
        _removeCallbackFunc (this h') = Some k /\
        _cartographicPosition (this h') = carto /\
        _terrainHeight (this h') =
          match getHeight g carto with Some height => height | None => 0%float end
  end.
Proof.
  intros Hlive. open_heap h. subst.
  destruct globe0 as [g | ]; [ | reflexivity].
  js_unfold. simpl.
  destruct _removeCallbackFunc0 as [old | ]; simpl;
    destruct (getHeight g _) eqn:Hheight; simpl;
    eexists; (split; [reflexivity | ]);
    unfold registrations, pending; simpl;
    rewrite !count_snoc, owned_snoc; simpl; rewrite Nat.eqb_refl;
    repeat split; try lia; apply in_or_app; right; left; reflexivity.
Qed.

(** ** Evaluation *)

Lemma HeightReference_eqb_eq (a b : HeightReference) :
  HeightReference_eqb a b = true <-> a = b.
Proof. destruct a, b; simpl; split; congruence. Qed.

Lemma noOffset_true (s : TerrainOffsetProperty) (time : JulianDate) :
  noOffset s time = true <->
  heightReferenceAt s time = NONE /\ extrudedHeightReferenceAt s time <> RELATIVE_TO_GROUND.
Proof.
  unfold noOffset. rewrite andb_true_iff, negb_true_iff, HeightReference_eqb_eq.
  split; intros [H1 H2]; split; trivial.
  - intros E. apply HeightReference_eqb_eq in E. congruence.
  - destruct (HeightReference_eqb _ RELATIVE_TO_GROUND) eqn:E; [ | reflexivity].
    apply HeightReference_eqb_eq in E. contradiction.
Qed.

(** C2.  On a live instance [getValue], called with or without a result,
    returns the zero vector, and leaves the instance and the scene as they
    were, whenever the height reference resolved for the base height is NONE
    and the one resolved for the extruded height is not RELATIVE_TO_GROUND,
    and also whenever the position function yields no position or yields
    exactly the origin: whatever the cached position, normal and terrain
    height are. *)
Theorem getValue_zero (h : Heap) (time : JulianDate) (result : option Cartesian3.t) :
  destroyed (this h) = false ->
  (heightReferenceAt (this h) time = NONE /\
   extrudedHeightReferenceAt (this h) time <> RELATIVE_TO_GROUND) \/
  _getPosition (this h) time = None \/
  (exists p, _getPosition (this h) time = Some p /\
             Cartesian3.equals p Cartesian3.ZERO = true) ->
  getValue time result h = (Normal Cartesian3.ZERO, h).
Proof.
  intros Hlive Hcase. js_unfold.
  destruct (noOffset (this h) time) eqn:Hmode; [reflexivity | ].
  rewrite Hlive.
  destruct Hcase as [Hnone | [Hpos | (p & Hpos & Hzero)]].
  - apply noOffset_true in Hnone. congruence.
  - rewrite Hpos. reflexivity.
  - rewrite Hpos, Hzero. reflexivity.
Qed.

Lemma multiplyByScalar_Normal (n v : Cartesian3.t) (a : float) (result : option Cartesian3.t) :
  Cartesian3.multiplyByScalar n a result = Normal v -> v = Cartesian3.scaled n a.
Proof.
  unfold Cartesian3.multiplyByScalar. destruct result; intros H; inversion H; reflexivity.
Qed.

(** What an offset evaluation returns, when it returns, is the cached normal
    times the cached terrain height of the heap it leaves. *)
Lemma getValue_returns_cached (h h' : Heap) (time : JulianDate)
    (result : option Cartesian3.t) (p v : Cartesian3.t) :
  destroyed (this h) = false ->
  passesGuards (this h) time p ->
  getValue time result h = (Normal v, h') ->
  v = Cartesian3.scaled (_normal (this h')) (_terrainHeight (this h')).
Proof.
  intros Hlive (Hmode & Hpos & Hnz) Hrun.
  open_heap h. subst. js_unfold. simpl in Hrun.
  rewrite Hmode in Hrun. rewrite Hpos in Hrun. simpl in Hrun. rewrite Hnz in Hrun.
  destruct (Cartesian3.equalsEpsilon _position0 p CesiumMath.EPSILON10).
  - inversion Hrun; subst. simpl. eapply multiplyByScalar_Normal; eassumption.
  - destruct globe0 as [g | ]; simpl in Hrun; [ | discriminate].
    destruct _removeCallbackFunc0 as [old | ]; simpl in Hrun;
      destruct (getHeight g _); simpl in Hrun; inversion Hrun; subst; simpl;
      eapply multiplyByScalar_Normal; eassumption.
Qed.

(** The fast path of lines 157-159: the heap is left as it was, and what is
    returned or thrown is what [multiplyByScalar] returns or throws. *)
Lemma getValue_fast_path (h : Heap) (time : JulianDate) (result : option Cartesian3.t)
    (p : Cartesian3.t) :
  destroyed (this h) = false ->
  passesGuards (this h) time p ->
  Cartesian3.equalsEpsilon (_position (this h)) p CesiumMath.EPSILON10 = true ->
  getValue time result h =
    (Cartesian3.multiplyByScalar (_normal (this h)) (_terrainHeight (this h)) result, h).
Proof.
  intros Hlive (Hmode & Hpos & Hnz) Hhit.
  js_unfold. rewrite Hmode, Hlive, Hpos, Hnz, Hhit. reflexivity.
Qed.

(** C3, on the code.  On a live instance, for a requested position that
    reached the comparison with the cached one, having passed the guards,
    and that the epsilon comparison against EPSILON10 finds equal to it,
    [getValue] leaves the whole heap as it was: no recomputation, no
    registration, the cached position, normal and height unchanged.  Called
    with a result it returns the cached normal times the cached terrain
    height, which is the value the previous evaluation returned when that
    evaluation went past the guards and left this heap.  Called without a
    result it throws a DeveloperError instead, where the two early returns
    of lines 149 and 154 return a new vector. *)
Theorem getValue_cache_hit (h : Heap) (time : JulianDate) (p : Cartesian3.t) :
  destroyed (this h) = false ->
  passesGuards (this h) time p ->
  Cartesian3.equalsEpsilon (_position (this h)) p CesiumMath.EPSILON10 = true ->
  (forall r : Cartesian3.t,
      getValue time (Some r) h =
        (Normal (Cartesian3.scaled (_normal (this h)) (_terrainHeight (this h))), h)) /\
  getValue time None h = (Throw DeveloperError, h) /\
  (forall (h0 : Heap) (time0 : JulianDate) (result0 : option Cartesian3.t)
          (p0 v r : Cartesian3.t),
      destroyed (this h0) = false ->
      passesGuards (this h0) time0 p0 ->
      getValue time0 result0 h0 = (Normal v, h) ->
      getValue time (Some r) h = (Normal v, h)).
Proof.
  intros Hlive Hguards Hhit.
  split; [ | split].
  - intros r. exact (getValue_fast_path h (Some r) Hlive Hguards Hhit).
  - exact (getValue_fast_path h None Hlive Hguards Hhit).
  - intros h0 time0 result0 p0 v r Hlive0 Hguards0 Hprev.
    rewrite (@getValue_returns_cached h0 h time0 result0 p0 v Hlive0 Hguards0 Hprev).
    exact (getValue_fast_path h (Some r) Hlive Hguards Hhit).
Qed.

(** A difference below the tolerance in each component is what the epsilon
    comparison accepts. *)
Lemma closer_than_epsilon (a b : Cartesian3.t) (eps : float) :
  (abs (Cartesian3.x a - Cartesian3.x b) <? eps)%float = true ->
  (abs (Cartesian3.y a - Cartesian3.y b) <? eps)%float = true ->
  (abs (Cartesian3.z a - Cartesian3.z b) <? eps)%float = true ->
  Cartesian3.equalsEpsilon a b eps = true.
Proof.
  intros Hx Hy Hz. unfold Cartesian3.equalsEpsilon, CesiumMath.equalsEpsilon.
  rewrite (ltb_leb Hx), (ltb_leb Hy), (ltb_leb Hz). reflexivity.
Qed.

(** With no globe attached, a request that misses the cache stores the
    candidate, lets the clamping recomputation put the height to 0 without
    registering anything, and then fails on [this._scene.globe.ellipsoid]
    (line 165), whether or not a result was given. *)
Lemma getValue_without_globe (h : Heap) (time : JulianDate) (result : option Cartesian3.t)
    (p : Cartesian3.t) :
  destroyed (this h) = false ->
  passesGuards (this h) time p ->
  Cartesian3.equalsEpsilon (_position (this h)) p CesiumMath.EPSILON10 = false ->
  globe (world h) = None ->
  getValue time result h =
    (Throw TypeError, with_this (set_terrainHeight 0%float (set_position p (this h))) h).
Proof.
  intros Hlive (Hmode & Hpos & Hnz) Hmiss Hglobe.
  open_heap h. subst. js_unfold. simpl.
  rewrite Hmode. rewrite Hpos. simpl. rewrite Hnz, Hmiss. simpl.
  rewrite clone_id. reflexivity.
Qed.

(** C4, as amended.  On a live instance whose scene has a globe attached,
    for a requested position that passed the guards and that the epsilon
    comparison against EPSILON10 tells apart from the cached position,
    [getValue] leaves the candidate as the cached position and its geodetic
    coordinate as the cached one; it cancels the registration it held, if
    any, and then issues exactly one new one, for that coordinate, whose
    handle it keeps; the cached terrain height is the best-effort height
    there, or 0; the cached normal is the surface normal at the candidate.
    Called with a result it returns that normal times the cached terrain
    height.  Called without one it leaves the same heap, the registration
    included, and throws a DeveloperError. *)
Theorem getValue_cache_miss (h : Heap) (time : JulianDate) (r p : Cartesian3.t) (g : Globe) :
  destroyed (this h) = false ->
  passesGuards (this h) time p ->
  Cartesian3.equalsEpsilon (_position (this h)) p CesiumMath.EPSILON10 = false ->
  globe (world h) = Some g ->
  let normal := geodeticSurfaceNormal (ellipsoid g) p in
  let carto := cartesianToCartographic (ellipsoid g) p in
  let k := nextRef (world h) in
  let cancelled := match _removeCallbackFunc (this h) with
                   | Some old => [Cancelled old]
                   | None => []
                   end in
  exists h',
    getValue time (Some r) h =
      (Normal (Cartesian3.scaled normal (_terrainHeight (this h'))), h') /\
    getValue time None h = (Throw DeveloperError, h') /\
    _position (this h') = p /\
    _cartographicPosition (this h') = carto /\
    _normal (this h') = normal /\
    _terrainHeight (this h') =
      match getHeight g carto with Some height => height | None => 0%float end /\
    _removeCallbackFunc (this h') = Some k /\
    trace (world h') = trace (world h) ++ cancelled ++ [Registered k] /\
    registrations h' = S (registrations h) /\
    heightCallbacks (world h') =
      match _removeCallbackFunc (this h) with
      | Some old => filter (fun r => negb (reg_handle r =? old)) (heightCallbacks (world h))
      | None => heightCallbacks (world h)
      end ++ [{| reg_handle := k; reg_owner := self (this h);
                 reg_cartographic := carto; reg_ellipsoid := ellipsoid g |}].
Proof.
  intros Hlive (Hmode & Hpos & Hnz) Hmiss Hglobe.
  open_heap h. subst. js_unfold. simpl.
  rewrite Hmode. rewrite Hpos. simpl. rewrite Hnz, Hmiss. simpl.
  rewrite clone_id.
  destruct _removeCallbackFunc0 as [old | ]; simpl;
    destruct (getHeight g _) eqn:Hheight; simpl;
    eexists; (split; [apply f_equal2; [ | reflexivity]; reflexivity | ]);
    (split; [reflexivity | ]); simpl;
    unfold registrations; simpl;
    rewrite ?Hheight, <- ?app_assoc, ?filter_app, ?length_app; simpl;
    repeat split; lia.
Qed.

(** C10, on the code.  Right after construction the cached position and
    normal are the zero vector and the cached terrain height is 0.  For a
    requested position that passed the guards, so is not exactly the origin,
    and whose three components are within EPSILON10 of 0, [getValue] on the
    instance as constructed, whatever the scene has become, takes the fast
    path and leaves the whole heap as it was: the cache is not updated and
    no height-refinement registration is issued.  Called with a result it
    returns the zero vector; called without one it throws a
    DeveloperError. *)
Theorem getValue_near_origin_after_construction
    (scene : option Ref) (height extrudedHeight : option HeightSource)
    (getPosition : option PositionFunction) (w w' w'' : World)
    (s : TerrainOffsetProperty) (time : JulianDate) (p : Cartesian3.t) :
  construct scene height extrudedHeight getPosition w = (Normal s, w') ->
  passesGuards s time p ->
  (abs (Cartesian3.x p) <=? CesiumMath.EPSILON10)%float = true ->
  (abs (Cartesian3.y p) <=? CesiumMath.EPSILON10)%float = true ->
  (abs (Cartesian3.z p) <=? CesiumMath.EPSILON10)%float = true ->
  (forall r : Cartesian3.t,
      getValue time (Some r) {| world := w''; this := s |} =
        (Normal Cartesian3.ZERO, {| world := w''; this := s |})) /\
  getValue time None {| world := w''; this := s |} =
    (Throw DeveloperError, {| world := w''; this := s |}).
Proof.
  intros Hnew Hguards Hx Hy Hz.
  assert (Hs : _position s = Cartesian3.ZERO /\ _normal s = Cartesian3.ZERO /\
               _terrainHeight s = 0%float /\ destroyed s = false).
  { unfold construct in Hnew.
    destruct scene, height, extrudedHeight, getPosition; simpl in Hnew;
      try discriminate.
    inversion Hnew; subst; simpl. repeat split. }
  destruct Hs as (Hposition & Hnormal & Hheight & Hlive).
  assert (Hhit : Cartesian3.equalsEpsilon (_position s) p CesiumMath.EPSILON10 = true).
  { rewrite Hposition. unfold Cartesian3.equalsEpsilon. simpl.
    rewrite !equalsEpsilon_zero by assumption. reflexivity. }
  split.
  - intros r.
    rewrite (getValue_fast_path {| world := w''; this := s |} (Some r) Hlive Hguards Hhit).
    simpl. rewrite Hnormal, Hheight. reflexivity.
  - exact (getValue_fast_path {| world := w''; this := s |} None Hlive Hguards Hhit).
Qed.

(** ** Ownership of the pending registration *)

Lemma filter_other_self (k : Ref) : filter (fun k' => negb (k' =? k)) [k] = [].
Proof. simpl. rewrite Nat.eqb_refl. reflexivity. Qed.

Ltac settle_owned :=
  unfold owns_what_it_keeps, pending in *; simpl in *;
  rewrite ?owned_snoc, ?owned_cancel; simpl;
  rewrite ?Nat.eqb_refl;
  repeat match goal with
         | H : owned _ _ = _ |- _ => rewrite H
         end;
  rewrite ?filter_other_self; simpl; try reflexivity.

(** The clamping recomputation keeps the ownership invariant; with a globe
    attached it cancels what was pending and leaves the one registration it
    issues. *)
Lemma updateClamping_owns (h : Heap) :
  destroyed (this h) = false ->
  owns_what_it_keeps h ->
  owns_what_it_keeps (snd (_updateClamping h)) /\
  destroyed (this (snd (_updateClamping h))) = false /\
  self (this (snd (_updateClamping h))) = self (this h).
Proof.
  intros Hlive Hown. open_heap h. subst. js_unfold.
  destruct globe0 as [g | ]; simpl.
  - destruct _removeCallbackFunc0 as [old | ]; simpl;
      destruct (getHeight g _); simpl; repeat split; settle_owned.
  - repeat split; settle_owned.
Qed.

Lemma getValue_owns (time : JulianDate) (result : option Cartesian3.t) (h : Heap) :
  owns_what_it_keeps h -> owns_what_it_keeps (snd (method (getValue time result) h)).
Proof.
  intros Hown. open_heap h. js_unfold. simpl.
  destruct destroyed0; [exact Hown | ].
  destruct (noOffset _ time); [exact Hown | ].
  destruct (_getPosition0 time) as [p | ]; simpl; [ | exact Hown].
  destruct (Cartesian3.equals p Cartesian3.ZERO); [exact Hown | ].
  destruct (Cartesian3.equalsEpsilon _position0 p CesiumMath.EPSILON10);
    [exact Hown | ].
  simpl. destruct globe0 as [g | ]; simpl.
  - destruct _removeCallbackFunc0 as [old | ]; simpl;
      destruct (getHeight g _); simpl; settle_owned.
  - settle_owned.
Qed.

Lemma raiseSceneEvent_owns (e : SceneEvent) (h : Heap) :
  owns_what_it_keeps h -> owns_what_it_keeps (snd (raiseSceneEvent e h)).
Proof.
  intros Hown. unfold raiseSceneEvent, bind, getThis, getWorld, ret, method, throwOnDestroyed, throw.
  destruct (existsb _ _); [ | exact Hown].
  destruct (destroyed (this h)) eqn:Hlive; [exact Hown | ].
  apply updateClamping_owns; assumption.
Qed.

Lemma heightCallback_owns (k : Ref) (q : Cartesian3.t) (h : Heap) :
  owns_what_it_keeps h -> owns_what_it_keeps (snd (heightCallback k q h)).
Proof.
  intros Hown. open_heap h. js_unfold. simpl.
  destruct (find _ heightCallbacks0) as [r | ]; [ | exact Hown].
  simpl. destruct (reg_owner r =? self0); simpl;
    unfold owns_what_it_keeps, pending in *; simpl in *; exact Hown.
Qed.

Lemma destroy_owns (h : Heap) :
  owns_what_it_keeps h -> owns_what_it_keeps (snd (method destroy h)).
Proof.
  intros Hown. open_heap h. js_unfold. simpl.
  destruct destroyed0; [exact Hown | ].
  destruct _removeCallbackFunc0 as [old | ]; simpl; settle_owned.
Qed.

Lemma step_owns (a : Action) (h : Heap) :
  owns_what_it_keeps h -> owns_what_it_keeps (snd (step a h)).
Proof.
  intros Hown. destruct a as [time result | e | k q | g | ]; simpl.
  - unfold bind, ret.
    pose proof (getValue_owns time result Hown) as H.
    destruct (method (getValue time result) h) as [[v | err] h']; exact H.
  - apply raiseSceneEvent_owns; assumption.
  - apply heightCallback_owns; assumption.
  - exact Hown.
  - apply destroy_owns; assumption.
Qed.

Lemma run_owns (acts : list Action) (h : Heap) :
  owns_what_it_keeps h -> owns_what_it_keeps (run acts h).
Proof.
  revert h. induction acts as [ | a acts IH]; intros h Hown; simpl.
  - exact Hown.
  - apply IH. apply step_owns. exact Hown.
Qed.

Lemma construct_owns (scene : option Ref) (height extrudedHeight : option HeightSource)
    (getPosition : option PositionFunction) (w w' : World) (s : TerrainOffsetProperty) :
  owned (nextRef w) (heightCallbacks w) = [] ->
  construct scene height extrudedHeight getPosition w = (Normal s, w') ->
  owns_what_it_keeps {| world := w'; this := s |}.
Proof.
  intros Hnone Hnew. unfold construct in Hnew.
  destruct scene, height, extrudedHeight, getPosition; simpl in Hnew;
    try discriminate.
  inversion Hnew; subst. unfold owns_what_it_keeps, pending. simpl.
  destruct w; simpl in *. exact Hnone.
Qed.

Lemma owns_at_most_one (h : Heap) :
  owns_what_it_keeps h -> length (pending h) <= 1.
Proof.
  unfold owns_what_it_keeps. intros ->.
  destruct (destroyed (this h)); [simpl; lia | ].
  destruct (_removeCallbackFunc (this h)); simpl; lia.
Qed.

Lemma updateClamping_supersedes (h : Heap) (g : Globe) :
  owns_what_it_keeps h ->
  destroyed (this h) = false ->
  globe (world h) = Some g ->
  exists h',
    _updateClamping h = (Normal tt, h') /\
    trace (world h') =
      trace (world h) ++ map Cancelled (pending h) ++ [Registered (nextRef (world h))] /\
    pending h' = [nextRef (world h)].
Proof.
  intros Hown Hlive Hglobe. open_heap h. subst. js_unfold. simpl.
  unfold owns_what_it_keeps, pending in *. simpl in *.
  destruct _removeCallbackFunc0 as [old | ]; simpl;
    destruct (getHeight g _); simpl; eexists; (split; [reflexivity | ]); simpl;
    rewrite ?owned_snoc, ?owned_cancel, Hown; simpl;
    rewrite ?Nat.eqb_refl, <- ?app_assoc; split; reflexivity.
Qed.

Lemma destroy_releases (h : Heap) :
  owns_what_it_keeps h ->
  destroyed (this h) = false ->
  exists h',
    destroy h = (Normal tt, h') /\
    trace (world h') =
      trace (world h) ++
      [RemovedListener terrainProviderChanged (_removeEventListener (this h));
       RemovedListener morphComplete (_removeModeListener (this h))] ++
      map Cancelled (pending h) /\
    pending h' = [] /\
    destroyed (this h') = true.
Proof.
  intros Hown Hlive. open_heap h. subst. js_unfold. simpl.
  unfold owns_what_it_keeps, pending in *. simpl in *.
  destruct _removeCallbackFunc0 as [old | ]; simpl;
    eexists; (split; [reflexivity | ]); simpl;
    rewrite ?owned_cancel, Hown; simpl;
    rewrite ?Nat.eqb_refl, <- ?app_assoc; repeat split; reflexivity.
Qed.

(** C5.  Take an instance from its construction, on a scene whose surface
    holds no callback of the new object, through any sequence of
    evaluations, scene events, refinement callbacks, changes of globe and
    calls of [destroy].  At every point the surface holds at most one
    registration of the instance.  A clamping recomputation run there on a
    live instance with a globe attached first cancels the registration that
    is pending, if any, and then issues one, which is then the only one
    pending; and [destroy] run there on a live instance releases the two
    subscriptions and cancels what is pending, leaving none. *)
Theorem at_most_one_pending_registration
    (scene : option Ref) (height extrudedHeight : option HeightSource)
    (getPosition : option PositionFunction) (w w' : World)
    (s : TerrainOffsetProperty) (acts : list Action) :
  owned (nextRef w) (heightCallbacks w) = [] ->
  construct scene height extrudedHeight getPosition w = (Normal s, w') ->
  let h := run acts {| world := w'; this := s |} in
  length (pending h) <= 1 /\
  (destroyed (this h) = false ->
   forall g, globe (world h) = Some g ->
     exists h',
       _updateClamping h = (Normal tt, h') /\
       trace (world h') =
         trace (world h) ++ map Cancelled (pending h) ++ [Registered (nextRef (world h))] /\
       pending h' = [nextRef (world h)]) /\
  (destroyed (this h) = false ->
   exists h',
     destroy h = (Normal tt, h') /\
     trace (world h') =
       trace (world h) ++
       [RemovedListener terrainProviderChanged (_removeEventListener (this h));
        RemovedListener morphComplete (_removeModeListener (this h))] ++
       map Cancelled (pending h) /\
     pending h' = []).
Proof.
  intros Hnone Hnew h.
  assert (Hown : owns_what_it_keeps h).
  { apply run_owns. exact (construct_owns _ _ _ _ _ Hnone Hnew). }
  split; [apply owns_at_most_one; exact Hown | split].
  - intros Hlive g Hglobe. exact (updateClamping_supersedes Hown Hlive Hglobe).
  - intros Hlive.
    destruct (destroy_releases Hown Hlive) as (h' & Hrun & Htrace & Hpending & _).
    exists h'. repeat split; assumption.
Qed.

(** ** The change notifier *)

Ltac settle_notifications :=
  unfold notifications, holds; simpl;
  rewrite ?filter_app, ?length_app; simpl;
  rewrite ?Nat.eqb_refl; simpl; lia.

Lemma updateClamping_silent (h : Heap) :
  destroyed (this h) = false ->
  notifications (snd (_updateClamping h)) = notifications h.
Proof.
  intros Hlive. open_heap h. subst. js_unfold.
  destruct globe0 as [g | ]; simpl; [ | reflexivity].
  destruct _removeCallbackFunc0 as [old | ]; simpl;
    destruct (getHeight g _); simpl; settle_notifications.
Qed.

Lemma getValue_silent (time : JulianDate) (result : option Cartesian3.t) (h : Heap) :
  notifications (snd (method (getValue time result) h)) = notifications h.
Proof.
  open_heap h. js_unfold. simpl.
  destruct destroyed0; [reflexivity | ].
  destruct (noOffset _ time); [reflexivity | ].
  destruct (_getPosition0 time) as [p | ]; simpl; [ | reflexivity].
  destruct (Cartesian3.equals p Cartesian3.ZERO); [reflexivity | ].
  destruct (Cartesian3.equalsEpsilon _position0 p CesiumMath.EPSILON10);
    [reflexivity | ].
  simpl. destruct globe0 as [g | ]; simpl; [ | reflexivity].
  destruct _removeCallbackFunc0 as [old | ]; simpl;
    destruct (getHeight g _); simpl; settle_notifications.
Qed.

Lemma raiseSceneEvent_silent (e : SceneEvent) (h : Heap) :
  notifications (snd (raiseSceneEvent e h)) = notifications h.
Proof.
  unfold raiseSceneEvent, bind, getThis, getWorld, ret, method, throwOnDestroyed, throw.
  destruct (existsb _ _); [ | reflexivity].
  destruct (destroyed (this h)) eqn:Hlive; [reflexivity | ].
  apply updateClamping_silent; assumption.
Qed.

Lemma destroy_silent (h : Heap) :
  notifications (snd (method destroy h)) = notifications h.
Proof.
  open_heap h. js_unfold. simpl.
  destruct destroyed0; [reflexivity | ].
  destruct _removeCallbackFunc0 as [old | ]; simpl; settle_notifications.
Qed.

Lemma heightCallback_notifies (k : Ref) (q : Cartesian3.t) (h : Heap) :
  notifications (snd (heightCallback k q h)) =
  notifications h + (if holds h k then 1 else 0).
Proof.
  open_heap h. js_unfold. unfold holds. simpl.
  destruct (find _ heightCallbacks0) as [r | ]; simpl; [ | settle_notifications].
  destruct (reg_owner r =? self0); simpl; settle_notifications.
Qed.

(** C6, as amended.  The change notifier is raised by the asynchronous
    refinement callback and by nothing else.  Each call of the callback of a
    registration of the instance that the surface still holds stores the
    height of the clamped position as the cached terrain height and raises
    exactly one notification, whether or not that height differs from the
    one cached before.  An evaluation, a scene event, a change of globe and
    [destroy] raise none, even when the synchronous update inside the
    clamping recomputation changes the cached terrain height. *)
Theorem notifier_raised_by_callback_only (a : Action) (h : Heap) :
  notifications (snd (step a h)) =
    notifications h +
    match a with
    | HeightCallback k _ => if holds h k then 1 else 0
    | _ => 0
    end /\
  match a with
  | HeightCallback k clampedPosition =>
      forall r, find (fun r => reg_handle r =? k) (heightCallbacks (world h)) = Some r ->
                reg_owner r = self (this h) ->
                _terrainHeight (this (snd (step a h))) =
                  Cartographic.height
                    (cartesianToCartographic (reg_ellipsoid r) clampedPosition)
  | _ => True
  end.
Proof.
  destruct a as [time result | e | k q | g | ]; simpl.
  - split; [ | exact I]. unfold bind, ret.
    pose proof (getValue_silent time result h) as H.
    destruct (method (getValue time result) h) as [[v | err] h']; simpl in *; lia.
  - split; [ | exact I]. rewrite raiseSceneEvent_silent. lia.
  - split; [apply heightCallback_notifies | ].
    intros r Hfind Howner. open_heap h. js_unfold. simpl.
    rewrite Hfind. simpl. subst. rewrite Nat.eqb_refl. reflexivity.
  - split; [ | exact I]. unfold notifications. simpl. lia.
  - split; [ | exact I]. rewrite destroy_silent. lia.
Qed.

(** ** Equality and teardown *)

(** C8.  For two instances, [equals] returns true exactly when they are the
    same instance, or they reference the same scene and their cached
    positions are equal, component by component under [===]. *)
Theorem equals_iff (a b : TerrainOffsetProperty) :
  equals a (Some b) = true <->
  self a = self b \/
  (_scene a = _scene b /\ Cartesian3.equals (_position a) (_position b) = true).
Proof.
  unfold equals, Property_equals.
  rewrite !orb_true_iff, andb_true_iff, orb_true_iff, !Nat.eqb_eq.
  tauto.
Qed.

(** C9, as amended.  On a live instance [destroy] returns normally, having
    released each of the two subscriptions once and cancelled the
    registration it kept, if any; its listeners are off the two scene events
    and the instance then reports itself as destroyed.  A second call of
    [destroy] releases nothing again and changes nothing: it throws a
    DeveloperError. *)
Theorem destroy_once_then_throws (h : Heap) :
  destroyed (this h) = false ->
  exists h1,
    method destroy h = (Normal tt, h1) /\
    trace (world h1) =
      trace (world h) ++
      [RemovedListener terrainProviderChanged (_removeEventListener (this h));
       RemovedListener morphComplete (_removeModeListener (this h))] ++
      match _removeCallbackFunc (this h) with
      | Some k => [Cancelled k]
      | None => []
      end /\
    ~ In (_removeEventListener (this h)) (terrainListeners (world h1)) /\
    ~ In (_removeModeListener (this h)) (morphListeners (world h1)) /\
    isDestroyed h1 = (Normal true, h1) /\
    method destroy h1 = (Throw DeveloperError, h1).
Proof.
  intros Hlive. open_heap h. subst. js_unfold. simpl.
  assert (Hoff : forall k l, ~ In k (filter (fun l' => negb (l' =? k)) l)).
  { intros k l Hin. apply filter_In in Hin. destruct Hin as [_ Hk].
    rewrite Nat.eqb_refl in Hk. discriminate. }
  destruct _removeCallbackFunc0 as [old | ]; simpl;
    eexists; (split; [reflexivity | ]); simpl;
    rewrite <- ?app_assoc; simpl; repeat split; auto.
Qed.

(** ** The code at particular inputs *)

(** The sample heap is the one the constructor leaves. *)
Lemma constructed_by_constructor (g : option Globe) :
  construct (Some 100) (Some Sample.switching) (Some Sample.noReference)
    (Some Sample.drifting) (Sample.emptyWorld g) =
  (Normal (this (Sample.constructed g)), world (Sample.constructed g)).
Proof. reflexivity. Qed.

(** C1, the code at the failing input.  A new instance on a scene with no
    globe, asked for its value, with or without a result, at a time when the
    height is relative to the ground and the position is (1, 0, 0): the
    candidate is stored, the clamping recomputation puts the height to 0,
    and [getValue] throws a TypeError instead of returning the zero vector.
    And once a globe that served an evaluation is taken away, a request
    within the tolerance of the cached position is answered from the cache,
    with (5, 0, 0). *)
Theorem getValue_throws_without_globe (result : option Cartesian3.t) :
  globe (world (Sample.constructed None)) = None /\
  getValue Sample.epoch result (Sample.constructed None) =
    (Throw TypeError,
     with_this (set_terrainHeight 0%float
                  (set_position (Cartesian3.fromElements 1 0 0)
                     (this (Sample.constructed None))))
       (Sample.constructed None)) /\
  globe (world Sample.deserted) = None /\
  (forall r : Cartesian3.t,
      fst (getValue Sample.soon (Some r) Sample.deserted) =
        Normal (Cartesian3.fromElements 5 0 0)).
Proof. repeat split. Qed.

(** C4 fails as stated, in three ways.  First the globe is taken away
    after an evaluation that left registration 3 pending: the next requested
    position, (1, 0, 1), passes the guards and is told apart from the cached
    (1, 0, 0), yet [getValue] issues no registration and leaves
    registration 3 pending.  Then, with a globe attached and the position
    (10^7, 0, 0) cached, the requested position has moved by 2^-11 along x:
    that is more than EPSILON10, but within EPSILON10 of the magnitude, so
    that the epsilon comparison finds the two equal, and [getValue] answers
    from the cache, leaving the heap as it was.  Last, with a globe attached
    and (1, 0, 0) cached, the request for (1, 0, 1) without a result issues
    its registration and then throws instead of returning. *)
Lemma getValue_cache_miss_fails_as_stated :
  (destroyed (this Sample.deserted) = false /\
   passesGuards (this Sample.deserted) Sample.afterwards (Cartesian3.fromElements 1 0 1) /\
   Cartesian3.equalsEpsilon (_position (this Sample.deserted))
     (Cartesian3.fromElements 1 0 1) CesiumMath.EPSILON10 = false /\
   globe (world Sample.deserted) = None /\
   registrations (snd (getValue Sample.afterwards Sample.scratch Sample.deserted)) =
     registrations Sample.deserted /\
   pending (snd (getValue Sample.afterwards Sample.scratch Sample.deserted)) = [3]) /\
  (destroyed (this Sample.farEvaluated) = false /\
   globe (world Sample.farEvaluated) = Some Sample.globe5 /\
   _position (this Sample.farEvaluated) = Cartesian3.fromElements 10000000 0 0 /\
   passesGuards (this Sample.farEvaluated) Sample.aBitLater
     (Cartesian3.fromElements (10000000 + 0x1p-11) 0 0) /\
   (CesiumMath.EPSILON10 <? abs (10000000 - (10000000 + 0x1p-11)))%float = true /\
   getValue Sample.aBitLater Sample.scratch Sample.farEvaluated =
     (Normal (Cartesian3.fromElements 5 0 0), Sample.farEvaluated)) /\
  (globe (world Sample.evaluated) = Some Sample.globe5 /\
   passesGuards (this Sample.evaluated) Sample.afterwards (Cartesian3.fromElements 1 0 1) /\
   Cartesian3.equalsEpsilon (_position (this Sample.evaluated))
     (Cartesian3.fromElements 1 0 1) CesiumMath.EPSILON10 = false /\
   fst (getValue Sample.afterwards None Sample.evaluated) = Throw DeveloperError /\
   registrations (snd (getValue Sample.afterwards None Sample.evaluated)) =
     S (registrations Sample.evaluated)).
Proof. repeat split. Qed.

(** C6 fails as stated, both ways.  Raising [terrainProviderChanged] on a
    new instance whose globe has terrain resident takes the cached height
    from 0 to 5 and raises no notification; the refinement callback that
    then reports a clamped position of height 5 leaves the cached height at
    5 and raises one. *)
Lemma notification_does_not_follow_height :
  let h0 := Sample.constructed (Some Sample.globe5) in
  let h1 := snd (step (RaiseSceneEvent terrainProviderChanged) h0) in
  let h2 := snd (step (HeightCallback 3 (Cartesian3.fromElements 6 0 0)) h1) in
  (_terrainHeight (this h0) =? _terrainHeight (this h1))%float = false /\
  notifications h1 = notifications h0 /\
  (_terrainHeight (this h1) =? _terrainHeight (this h2))%float = true /\
  notifications h2 = S (notifications h1).
Proof. repeat split. Qed.

(** C9 fails as stated: the second [destroy] on a new instance raises an
    error. *)
Lemma second_destroy_throws :
  fst (step Destroy (Sample.constructed None)) = Normal tt /\
  fst (step Destroy (snd (step Destroy (Sample.constructed None)))) =
    Throw DeveloperError.
Proof. split; reflexivity. Qed.

(** ** The theorems at sample inputs *)

(** C7 at the evaluated sample: the recomputation registers 4 and reads the
    resident height 5. *)
Lemma updateClamping_postcondition_witness :
  destroyed (this Sample.evaluated) = false /\
  exists h',
    _updateClamping Sample.evaluated = (Normal tt, h') /\
    registrations h' = S (registrations Sample.evaluated) /\
    In 4 (pending h') /\
    _removeCallbackFunc (this h') = Some 4 /\
    _cartographicPosition (this h') = Cartographic.fromRadians 0 0 0 /\
    _terrainHeight (this h') = 5%float.
Proof.
  split; [reflexivity | ].
  exact (updateClamping_postcondition Sample.evaluated eq_refl).
Defined.

(** C2 at the evaluated sample, two days later, when the height has no
    height reference any more, and without a result: the cache holds
    (1, 0, 0) and a height of 5, and the value is the zero vector. *)
Lemma getValue_zero_witness :
  _terrainHeight (this Sample.evaluated) = 5%float /\
  getValue Sample.twoDaysLater None Sample.evaluated =
    (Normal Cartesian3.ZERO, Sample.evaluated).
Proof.
  split; [reflexivity | ].
  apply getValue_zero; [reflexivity | ].
  left. split; [reflexivity | discriminate].
Defined.

(** C3 at the evaluated sample, 2^-35 seconds later: the position has
    drifted to (1, 0, 2^-35), within the tolerance of the cached (1, 0, 0).
    With a result the value is again (5, 0, 0), the value of the evaluation
    before; without one the call throws; the heap is untouched either
    way. *)
Lemma getValue_cache_hit_witness :
  getValue Sample.soon Sample.scratch Sample.evaluated =
    (Normal (Cartesian3.fromElements 5 0 0), Sample.evaluated) /\
  getValue Sample.soon None Sample.evaluated =
    (Throw DeveloperError, Sample.evaluated) /\
  getValue Sample.epoch Sample.scratch (Sample.constructed (Some Sample.globe5)) =
    (Normal (Cartesian3.fromElements 5 0 0), Sample.evaluated).
Proof.
  assert (Hguards : passesGuards (this Sample.evaluated) Sample.soon
                      (Cartesian3.fromElements 1 0 0x1p-35%float)).
  { repeat split. }
  assert (Hhit : Cartesian3.equalsEpsilon (_position (this Sample.evaluated))
                   (Cartesian3.fromElements 1 0 0x1p-35%float) CesiumMath.EPSILON10 = true).
  { reflexivity. }
  assert (Hguards0 : passesGuards (this (Sample.constructed (Some Sample.globe5)))
                       Sample.epoch (Cartesian3.fromElements 1 0 0)).
  { repeat split. }
  assert (Hprev : getValue Sample.epoch Sample.scratch
                    (Sample.constructed (Some Sample.globe5)) =
                    (Normal (Cartesian3.fromElements 5 0 0), Sample.evaluated)).
  { reflexivity. }
  destruct (@getValue_cache_hit Sample.evaluated Sample.soon
              (Cartesian3.fromElements 1 0 0x1p-35%float) eq_refl Hguards Hhit)
    as (_ & Hnone & Hsame).
  split; [ | split; [exact Hnone | exact Hprev]].
  exact (Hsame (Sample.constructed (Some Sample.globe5)) Sample.epoch Sample.scratch
           (Cartesian3.fromElements 1 0 0) (Cartesian3.fromElements 5 0 0)
           (Cartesian3.fromElements 9 9 9) eq_refl Hguards0 Hprev).
Defined.

(** C4 as amended at the evaluated sample, one second later: the position
    (1, 0, 1) is stored, registration 3 is cancelled and 4 issued, and the
    value is (5, 0, 0). *)
Lemma getValue_cache_miss_witness :
  exists h',
    getValue Sample.afterwards Sample.scratch Sample.evaluated =
      (Normal (Cartesian3.scaled (Cartesian3.fromElements 1 0 0)
                 (_terrainHeight (this h'))), h') /\
    _position (this h') = Cartesian3.fromElements 1 0 1 /\
    _terrainHeight (this h') = 5%float /\
    trace (world h') = trace (world Sample.evaluated) ++ [Cancelled 3; Registered 4].
Proof.
  assert (Hguards : passesGuards (this Sample.evaluated) Sample.afterwards
                      (Cartesian3.fromElements 1 0 1)).
  { repeat split. }
  assert (Hmiss : Cartesian3.equalsEpsilon (_position (this Sample.evaluated))
                    (Cartesian3.fromElements 1 0 1) CesiumMath.EPSILON10 = false).
  { reflexivity. }
  assert (Hglobe : globe (world Sample.evaluated) = Some Sample.globe5).
  { reflexivity. }
  destruct (@getValue_cache_miss Sample.evaluated Sample.afterwards
              (Cartesian3.fromElements 9 9 9) (Cartesian3.fromElements 1 0 1)
              Sample.globe5 eq_refl Hguards Hmiss Hglobe)
    as (h' & Hrun & _ & Hposition & _ & _ & Hheight & _ & Htrace & _).
  exists h'. repeat split; assumption.
Defined.

(** C10 for a new instance whose position stays 2^-35 off the origin: the
    zero vector with a result, a DeveloperError without. *)
Lemma getValue_near_origin_witness :
  exists s w',
    construct (Some 100) (Some Sample.switching) (Some Sample.noReference)
      (Some Sample.nearOrigin) (Sample.emptyWorld (Some Sample.globe5)) = (Normal s, w') /\
    getValue Sample.epoch Sample.scratch {| world := w'; this := s |} =
      (Normal Cartesian3.ZERO, {| world := w'; this := s |}) /\
    getValue Sample.epoch None {| world := w'; this := s |} =
      (Throw DeveloperError, {| world := w'; this := s |}).
Proof.
  eexists. eexists. split; [reflexivity | ].
  destruct (@getValue_near_origin_after_construction
              (Some 100) (Some Sample.switching) (Some Sample.noReference)
              (Some Sample.nearOrigin) (Sample.emptyWorld (Some Sample.globe5))
              _ (world (Sample.constructedWith Sample.nearOrigin (Some Sample.globe5)))
              _ Sample.epoch (Cartesian3.fromElements 0x1p-35%float 0 0)
              eq_refl (conj eq_refl (conj eq_refl eq_refl)) eq_refl eq_refl eq_refl)
    as [Hsome Hnone].
  split; [exact (Hsome (Cartesian3.fromElements 9 9 9)) | exact Hnone].
Defined.

(** C5 along a sample life: two evaluations a second apart, the second
    without a result, a terrain change, a refinement callback, the globe
    taken away, a morph, the globe back, a third evaluation. *)
Lemma at_most_one_pending_registration_witness :
  length (pending
    (run [GetValue Sample.epoch Sample.scratch; GetValue Sample.afterwards None;
          RaiseSceneEvent terrainProviderChanged;
          HeightCallback 5 (Cartesian3.fromElements 8 0 0);
          SetGlobe None; RaiseSceneEvent morphComplete;
          SetGlobe (Some Sample.globeEmpty); GetValue Sample.epoch Sample.scratch]
       (Sample.constructed (Some Sample.globe5)))) <= 1.
Proof.
  exact (proj1 (@at_most_one_pending_registration
                  (Some 100) (Some Sample.switching) (Some Sample.noReference)
                  (Some Sample.drifting) (Sample.emptyWorld (Some Sample.globe5)) _ _ _
                  eq_refl (constructed_by_constructor (Some Sample.globe5)))).
Defined.

(** C9 as amended at the evaluated sample: the first [destroy] releases
    listeners 1 and 2 and cancels registration 3; the second throws. *)
Lemma destroy_once_then_throws_witness :
  exists h1,
    method destroy Sample.evaluated = (Normal tt, h1) /\
    trace (world h1) =
      trace (world Sample.evaluated) ++
      [RemovedListener terrainProviderChanged 1; RemovedListener morphComplete 2;
       Cancelled 3] /\
    isDestroyed h1 = (Normal true, h1) /\
    method destroy h1 = (Throw DeveloperError, h1).
Proof.
  destruct (destroy_once_then_throws Sample.evaluated eq_refl)
    as (h1 & Hrun & Htrace & _ & _ & Hdestroyed & Hagain).
  exists h1. repeat split; assumption.
Defined.

(** * Further properties *)

(** ** More on numbers *)

Lemma SFcompare_refl_not_nan (v : spec_float) :
  SFeqb v v = false -> v = S754_nan.
Proof.
  unfold SFeqb. destruct v as [s | s | | s m e]; simpl; try discriminate.
  - destruct s; discriminate.
  - reflexivity.
  - rewrite Z.compare_refl.
    replace (PosDef.Pos.compare_cont Eq m m) with Eq
      by (symmetry; apply Pos.compare_cont_refl).
    destruct s; discriminate.
Qed.

(** A number that differs from itself is NaN. *)
Lemma is_nan_spec (v : float) : is_nan v = true -> Prim2SF v = S754_nan.
Proof.
  unfold is_nan. rewrite negb_true_iff, FloatAxioms.eqb_spec.
  apply SFcompare_refl_not_nan.
Qed.

(** A finite number is a zero or has a mantissa and an exponent. *)
Lemma is_finite_spec (v : float) :
  is_finite v = true ->
  (exists s, Prim2SF v = S754_zero s) \/ (exists s m e, Prim2SF v = S754_finite s m e).
Proof.
  unfold is_finite, is_nan, is_infinity.
  rewrite negb_true_iff, orb_false_iff, negb_false_iff.
  rewrite !FloatAxioms.eqb_spec, abs_spec.
  intros [Hnan Hinf].
  destruct (Prim2SF v) as [s | s | | s m e].
  - left. exists s. reflexivity.
  - destruct s; discriminate.
  - discriminate.
  - right. exists s, m, e. reflexivity.
Qed.

(** A finite number minus itself is 0. *)
Lemma sub_diag (v : float) : is_finite v = true -> (v - v)%float = 0%float.
Proof.
  intros Hfin. apply Prim2SF_inj. rewrite sub_spec.
  change (Prim2SF 0) with (S754_zero false). unfold SF64sub.
  destruct (is_finite_spec v Hfin) as [[s Hv] | (s & m & e & Hv)]; rewrite Hv.
  - destruct s; reflexivity.
  - simpl. rewrite Z.sub_diag. reflexivity.
Qed.

(** The epsilon comparison accepts a finite position against itself. *)
Lemma equalsEpsilon_refl (p : Cartesian3.t) :
  isFinite p = true ->
  Cartesian3.equalsEpsilon p p CesiumMath.EPSILON10 = true.
Proof.
  unfold isFinite. rewrite !andb_true_iff. intros [[Hx Hy] Hz].
  unfold Cartesian3.equalsEpsilon, CesiumMath.equalsEpsilon.
  rewrite (sub_diag _ Hx), (sub_diag _ Hy), (sub_diag _ Hz). reflexivity.
Qed.

(** No tolerance makes a NaN close to anything. *)
Lemma equalsEpsilon_nan (u v relativeEpsilon absoluteEpsilon : float) :
  is_nan v = true ->
  CesiumMath.equalsEpsilon u v relativeEpsilon absoluteEpsilon = false.
Proof.
  intros Hnan. unfold CesiumMath.equalsEpsilon.
  assert (Hdiff : Prim2SF (abs (u - v)) = S754_nan).
  { rewrite abs_spec, sub_spec, (is_nan_spec _ Hnan). unfold SF64sub.
    destruct (Prim2SF u) as [s | s | | s m e]; reflexivity. }
  rewrite !leb_spec, Hdiff. reflexivity.
Qed.

Lemma eqb_nan (u v : float) : is_nan v = true -> (v =? u)%float = false.
Proof.
  intros Hnan. rewrite FloatAxioms.eqb_spec, (is_nan_spec _ Hnan). reflexivity.
Qed.

(** A position with a NaN component is not the origin and is told apart
    from every position, itself included. *)
Lemma hasNaN_never_equal (q p : Cartesian3.t) :
  hasNaN p = true ->
  Cartesian3.equals p Cartesian3.ZERO = false /\
  Cartesian3.equalsEpsilon q p CesiumMath.EPSILON10 = false.
Proof.
  unfold hasNaN. rewrite !orb_true_iff. intros Hnan.
  unfold Cartesian3.equals, Cartesian3.equalsEpsilon. simpl.
  destruct Hnan as [[Hx | Hy] | Hz].
  - rewrite (eqb_nan _ _ Hx), (equalsEpsilon_nan _ _ _ _ Hx). split; reflexivity.
  - rewrite (eqb_nan _ _ Hy), (equalsEpsilon_nan _ _ _ _ Hy), !andb_false_r.
    split; reflexivity.
  - rewrite (eqb_nan _ _ Hz), (equalsEpsilon_nan _ _ _ _ Hz), !andb_false_r.
    split; reflexivity.
Qed.

Lemma SFeqb_sym (u v : spec_float) : SFeqb u v = SFeqb v u.
Proof.
  unfold SFeqb.
  destruct u as [s1 | s1 | | s1 m1 e1], v as [s2 | s2 | | s2 m2 e2]; simpl;
    try reflexivity; try (destruct s1; reflexivity); try (destruct s2; reflexivity);
    try (destruct s1, s2; reflexivity).
  rewrite (Z.compare_antisym e1 e2).
  replace (PosDef.Pos.compare_cont Eq m2 m1) with (Pos.compare m2 m1) by reflexivity.
  replace (PosDef.Pos.compare_cont Eq m1 m2) with (Pos.compare m1 m2) by reflexivity.
  rewrite (Pos.compare_antisym m1 m2).
  destruct s1, s2; simpl; try reflexivity;
    destruct (e1 ?= e2)%Z; simpl; try reflexivity;
    destruct (m1 ?= m2)%positive; reflexivity.
Qed.

(** [===] on numbers does not depend on the order of its operands. *)
Lemma float_eqb_sym (u v : float) : (u =? v)%float = (v =? u)%float.
Proof. rewrite !FloatAxioms.eqb_spec. apply SFeqb_sym. Qed.

(** ** Equality *)

Lemma Cartesian3_equals_sym (p q : Cartesian3.t) :
  Cartesian3.equals p q = Cartesian3.equals q p.
Proof.
  unfold Cartesian3.equals.
  rewrite (float_eqb_sym (Cartesian3.x p)), (float_eqb_sym (Cartesian3.y p)),
    (float_eqb_sym (Cartesian3.z p)).
  reflexivity.
Qed.

(** X1.  [equals] holds of every instance and itself, whatever its cached
    position is, and gives the same answer whichever of two instances it is
    called on. *)
Theorem equals_reflexive_symmetric (a b : TerrainOffsetProperty) :
  equals a (Some a) = true /\
  equals a (Some b) = equals b (Some a).
Proof.
  unfold equals, Property_equals. split.
  - rewrite Nat.eqb_refl. reflexivity.
  - rewrite (Nat.eqb_sym (self a)), (Nat.eqb_sym (_scene a)),
      (Cartesian3_equals_sym (_position a)).
    reflexivity.
Qed.

(** ** The whole life of an instance *)

Lemma existsb_snoc_self (k : Ref) (l : list Ref) :
  existsb (Nat.eqb k) (l ++ [k]) = true.
Proof.
  rewrite existsb_app. simpl. rewrite Nat.eqb_refl, orb_true_r. reflexivity.
Qed.

Lemma existsb_filter_self (k : Ref) (l : list Ref) :
  existsb (Nat.eqb k) (filter (fun l' => negb (l' =? k)) l) = false.
Proof.
  induction l as [ | a l IH]; simpl; [reflexivity | ].
  destruct (a =? k) eqn:Ha; simpl; [exact IH | ].
  rewrite (Nat.eqb_sym k a), Ha. exact IH.
Qed.

Ltac open_kept H :=
  let Hsub := fresh "Hsub" in
  let Hrel := fresh "Hrel" in
  let Hcfg := fresh "Hcfg" in
  destruct H as (Hsub & Hrel & Hcfg);
  unfold subscribed, releases, same_configuration in *;
  simpl in *;
  destruct Hcfg as (? & ? & ? & ? & ? & ? & ?).

Ltac count_log :=
  simpl; rewrite ?filter_app, ?length_app; simpl;
  rewrite ?Nat.eqb_refl; simpl.

Ltac settle_kept Hsub Hrel :=
  unfold kept, subscribed, releases, same_configuration; simpl;
  split; [ | split];
  [ intros e; specialize (Hsub e); destruct e; simpl in *;
    rewrite ?existsb_filter_self; try exact Hsub; reflexivity
  | intros e; specialize (Hrel e); destruct e; simpl in *;
    count_log; rewrite ?Hrel; simpl; try lia
  | repeat split; assumption ].

Ltac open_accounted H :=
  let Hown := fresh "Hown" in
  let Hbal := fresh "Hbal" in
  destruct H as (Hown & Hbal);
  unfold owns_what_it_keeps, pending, registrations, cancellations in *;
  simpl in *.

Ltac settle_accounted Hown Hbal :=
  unfold accounted, owns_what_it_keeps, pending, registrations, cancellations;
  simpl;
  split;
  [ rewrite ?owned_snoc, ?owned_cancel, ?Hown; simpl;
    rewrite ?Nat.eqb_refl, ?filter_other_self; reflexivity
  | rewrite ?owned_snoc, ?owned_cancel, ?Hown in *; count_log;
    rewrite ?Nat.eqb_refl, ?filter_other_self in *; simpl in *; try lia ].

Lemma construct_kept (scene : option Ref) (height extrudedHeight : option HeightSource)
    (getPosition : option PositionFunction) (w w' : World) (s : TerrainOffsetProperty) :
  construct scene height extrudedHeight getPosition w = (Normal s, w') ->
  kept {| world := w'; this := s |} {| world := w'; this := s |}.
Proof.
  intros Hnew. unfold construct in Hnew.
  destruct scene, height, extrudedHeight, getPosition; simpl in Hnew;
    try discriminate.
  inversion Hnew; subst. destruct w; simpl in *.
  unfold kept, subscribed, same_configuration.
  split; [ | split].
  - intros e. destruct e.
    + exact (existsb_snoc_self (S nextRef0) terrainListeners0).
    + exact (existsb_snoc_self (S (S nextRef0)) morphListeners0).
  - intros e. simpl. lia.
  - repeat split.
Qed.

Lemma construct_accounted (scene : option Ref) (height extrudedHeight : option HeightSource)
    (getPosition : option PositionFunction) (w w' : World) (s : TerrainOffsetProperty) :
  owned (nextRef w) (heightCallbacks w) = [] ->
  construct scene height extrudedHeight getPosition w = (Normal s, w') ->
  accounted {| world := w'; this := s |} {| world := w'; this := s |}.
Proof.
  intros Hnone Hnew. unfold construct in Hnew.
  destruct scene, height, extrudedHeight, getPosition; simpl in Hnew;
    try discriminate.
  inversion Hnew; subst. destruct w; simpl in *.
  unfold accounted, owns_what_it_keeps, pending.
  split; [exact Hnone | ].
  simpl. rewrite Hnone. simpl. lia.
Qed.

Lemma updateClamping_kept (h0 h : Heap) :
  destroyed (this h) = false ->
  kept h0 h -> kept h0 (snd (_updateClamping h)).
Proof.
  intros Hlive Hkept. open_heap h. subst. open_kept Hkept. subst. js_unfold.
  destruct globe0 as [g | ]; simpl.
  - destruct _removeCallbackFunc0 as [old | ]; simpl;
      destruct (getHeight g _); simpl; settle_kept Hsub Hrel.
  - settle_kept Hsub Hrel.
Qed.

Lemma updateClamping_accounted (h0 h : Heap) :
  destroyed (this h) = false ->
  accounted h0 h -> accounted h0 (snd (_updateClamping h)).
Proof.
  intros Hlive Hacc. open_heap h. subst. open_accounted Hacc. js_unfold.
  destruct globe0 as [g | ]; simpl.
  - destruct _removeCallbackFunc0 as [old | ]; simpl;
      destruct (getHeight g _); simpl; settle_accounted Hown Hbal.
  - settle_accounted Hown Hbal.
Qed.

Lemma getValue_kept (time : JulianDate) (result : option Cartesian3.t) (h0 h : Heap) :
  kept h0 h -> kept h0 (snd (method (getValue time result) h)).
Proof.
  intros Hkept. open_heap h. js_unfold. simpl.
  destruct destroyed0; [exact Hkept | ].
  destruct (noOffset _ time); [exact Hkept | ].
  destruct (_getPosition0 time) as [p | ]; simpl; [ | exact Hkept].
  destruct (Cartesian3.equals p Cartesian3.ZERO); [exact Hkept | ].
  destruct (Cartesian3.equalsEpsilon _position0 p CesiumMath.EPSILON10);
    [exact Hkept | ].
  open_kept Hkept. subst. simpl.
  destruct globe0 as [g | ]; simpl.
  - destruct _removeCallbackFunc0 as [old | ]; simpl;
      destruct (getHeight g _); simpl; settle_kept Hsub Hrel.
  - settle_kept Hsub Hrel.
Qed.

Lemma getValue_accounted (time : JulianDate) (result : option Cartesian3.t) (h0 h : Heap) :
  accounted h0 h -> accounted h0 (snd (method (getValue time result) h)).
Proof.
  intros Hacc. open_heap h. js_unfold. simpl.
  destruct destroyed0; [exact Hacc | ].
  destruct (noOffset _ time); [exact Hacc | ].
  destruct (_getPosition0 time) as [p | ]; simpl; [ | exact Hacc].
  destruct (Cartesian3.equals p Cartesian3.ZERO); [exact Hacc | ].
  destruct (Cartesian3.equalsEpsilon _position0 p CesiumMath.EPSILON10);
    [exact Hacc | ].
  open_accounted Hacc. simpl.
  destruct globe0 as [g | ]; simpl.
  - destruct _removeCallbackFunc0 as [old | ]; simpl;
      destruct (getHeight g _); simpl; settle_accounted Hown Hbal.
  - settle_accounted Hown Hbal.
Qed.

Lemma heightCallback_kept (k : Ref) (q : Cartesian3.t) (h0 h : Heap) :
  kept h0 h -> kept h0 (snd (heightCallback k q h)).
Proof.
  intros Hkept. open_heap h. js_unfold. simpl.
  destruct (find _ heightCallbacks0) as [r | ]; [ | exact Hkept].
  simpl. destruct (reg_owner r =? self0); simpl; [ | exact Hkept].
  open_kept Hkept. subst. settle_kept Hsub Hrel.
Qed.

Lemma heightCallback_accounted (k : Ref) (q : Cartesian3.t) (h0 h : Heap) :
  accounted h0 h -> accounted h0 (snd (heightCallback k q h)).
Proof.
  intros Hacc. open_heap h. js_unfold. simpl.
  destruct (find _ heightCallbacks0) as [r | ]; [ | exact Hacc].
  simpl. destruct (reg_owner r =? self0); simpl; [ | exact Hacc].
  open_accounted Hacc. settle_accounted Hown Hbal.
Qed.

Lemma destroy_kept (h0 h : Heap) :
  kept h0 h -> kept h0 (snd (method destroy h)).
Proof.
  intros Hkept. open_heap h. js_unfold. simpl.
  destruct destroyed0; [exact Hkept | ].
  open_kept Hkept. subst.
  destruct _removeCallbackFunc0 as [old | ]; simpl; settle_kept Hsub Hrel.
Qed.

Lemma destroy_accounted (h0 h : Heap) :
  accounted h0 h -> accounted h0 (snd (method destroy h)).
Proof.
  intros Hacc. open_heap h. js_unfold. simpl.
  destruct destroyed0; [exact Hacc | ].
  open_accounted Hacc.
  destruct _removeCallbackFunc0 as [old | ]; simpl; settle_accounted Hown Hbal.
Qed.

Lemma step_kept (a : Action) (h0 h : Heap) :
  kept h0 h -> kept h0 (snd (step a h)).
Proof.
  intros Hkept. destruct a as [time result | e | k q | g | ]; simpl.
  - unfold bind, ret.
    pose proof (getValue_kept time result Hkept) as H.
    destruct (method (getValue time result) h) as [[v | err] h']; exact H.
  - unfold raiseSceneEvent, bind, getThis, getWorld, ret, method, throwOnDestroyed, throw.
    destruct (existsb _ _); [ | exact Hkept].
    destruct (destroyed (this h)) eqn:Hlive; [exact Hkept | ].
    apply updateClamping_kept; assumption.
  - apply heightCallback_kept; assumption.
  - exact Hkept.
  - apply destroy_kept; assumption.
Qed.

Lemma step_accounted (a : Action) (h0 h : Heap) :
  accounted h0 h -> accounted h0 (snd (step a h)).
Proof.
  intros Hacc. destruct a as [time result | e | k q | g | ]; simpl.
  - unfold bind, ret.
    pose proof (getValue_accounted time result Hacc) as H.
    destruct (method (getValue time result) h) as [[v | err] h']; exact H.
  - unfold raiseSceneEvent, bind, getThis, getWorld, ret, method, throwOnDestroyed, throw.
    destruct (existsb _ _); [ | exact Hacc].
    destruct (destroyed (this h)) eqn:Hlive; [exact Hacc | ].
    apply updateClamping_accounted; assumption.
  - apply heightCallback_accounted; assumption.
  - exact Hacc.
  - apply destroy_accounted; assumption.
Qed.

Lemma run_kept (acts : list Action) (h0 h : Heap) :
  kept h0 h -> kept h0 (run acts h).
Proof.
  revert h. induction acts as [ | a acts IH]; intros h Hkept; simpl.
  - exact Hkept.
  - apply IH. apply step_kept. exact Hkept.
Qed.

Lemma run_accounted (acts : list Action) (h0 h : Heap) :
  accounted h0 h -> accounted h0 (run acts h).
Proof.
  revert h. induction acts as [ | a acts IH]; intros h Hacc; simpl.
  - exact Hacc.
  - apply IH. apply step_accounted. exact Hacc.
Qed.

(** Whether an instance is destroyed after an action is whether it was
    before or the action is [destroy]. *)
Lemma step_destroyed (a : Action) (h : Heap) :
  destroyed (this (snd (step a h))) = destroyed (this h) || isDestroy a.
Proof.
  destruct a as [time result | e | k q | g | ]; open_heap h; js_unfold; simpl.
  - unfold bind, ret. js_unfold. unfold Cartesian3.multiplyByScalar. simpl.
    destruct result as [r | ]; simpl;
      (destruct destroyed0; [reflexivity | ]);
      (destruct (noOffset _ time); [reflexivity | ]);
      (destruct (_getPosition0 time) as [p | ]; simpl; [ | reflexivity]);
      (destruct (Cartesian3.equals p Cartesian3.ZERO); [reflexivity | ]);
      (destruct (Cartesian3.equalsEpsilon _position0 p CesiumMath.EPSILON10);
         [reflexivity | ]);
      simpl; (destruct globe0 as [g | ]; simpl; [ | reflexivity]);
      destruct _removeCallbackFunc0 as [old | ]; simpl;
      destruct (getHeight g _); reflexivity.
  - destruct e; simpl;
      (destruct (existsb _ _); [ | rewrite orb_false_r; reflexivity]);
      (destruct destroyed0; [reflexivity | ]);
      (destruct globe0 as [g | ]; simpl; [ | reflexivity]);
      destruct _removeCallbackFunc0 as [old | ]; simpl;
      destruct (getHeight g _); reflexivity.
  - destruct (find _ heightCallbacks0) as [r | ]; simpl;
      [ | rewrite orb_false_r; reflexivity].
    destruct (reg_owner r =? self0); simpl; rewrite orb_false_r; reflexivity.
  - rewrite orb_false_r. reflexivity.
  - destruct destroyed0; [reflexivity | ].
    destruct _removeCallbackFunc0 as [old | ]; reflexivity.
Qed.

Lemma run_destroyed (acts : list Action) (h : Heap) :
  destroyed (this (run acts h)) = destroyed (this h) || existsb isDestroy acts.
Proof.
  revert h. induction acts as [ | a acts IH]; intros h; simpl.
  - rewrite orb_false_r. reflexivity.
  - rewrite IH, step_destroyed, orb_assoc. reflexivity.
Qed.

Lemma constructed_live (scene : option Ref) (height extrudedHeight : option HeightSource)
    (getPosition : option PositionFunction) (w w' : World) (s : TerrainOffsetProperty) :
  construct scene height extrudedHeight getPosition w = (Normal s, w') ->
  destroyed s = false.
Proof.
  intros Hnew. unfold construct in Hnew.
  destruct scene, height, extrudedHeight, getPosition; simpl in Hnew;
    try discriminate.
  inversion Hnew; reflexivity.
Qed.

Lemma same_configuration_refl (s : TerrainOffsetProperty) : same_configuration s s.
Proof. repeat split. Qed.

(** The guards read the configuration and nothing else of the instance. *)
Lemma passesGuards_configuration (s s' : TerrainOffsetProperty) (time : JulianDate)
    (p : Cartesian3.t) :
  same_configuration s s' ->
  passesGuards s time p -> passesGuards s' time p.
Proof.
  intros (_ & _ & Hh & He & Hg & _ & _) (Hmode & Hpos & Hnz).
  unfold passesGuards, noOffset, heightReferenceAt, extrudedHeightReferenceAt in *.
  rewrite Hh, He, Hg. repeat split; assumption.
Qed.

(** The slow path of lines 161-166 with a globe attached, by what it leaves;
    what is returned or thrown is what [multiplyByScalar] returns or
    throws. *)
Lemma getValue_slow_path (h : Heap) (time : JulianDate) (result : option Cartesian3.t)
    (p : Cartesian3.t) (g : Globe) :
  destroyed (this h) = false ->
  passesGuards (this h) time p ->
  Cartesian3.equalsEpsilon (_position (this h)) p CesiumMath.EPSILON10 = false ->
  globe (world h) = Some g ->
  exists h1,
    getValue time result h =
      (Cartesian3.multiplyByScalar (_normal (this h1)) (_terrainHeight (this h1)) result,
       h1) /\
    destroyed (this h1) = false /\
    same_configuration (this h) (this h1) /\
    _position (this h1) = p /\
    _normal (this h1) = geodeticSurfaceNormal (ellipsoid g) p /\
    _terrainHeight (this h1) =
      match getHeight g (cartesianToCartographic (ellipsoid g) p) with
      | Some height => height
      | None => 0%float
      end /\
    globe (world h1) = Some g /\
    terrainListeners (world h1) = terrainListeners (world h) /\
    morphListeners (world h1) = morphListeners (world h) /\
    registrations h1 = S (registrations h) /\
    notifications h1 = notifications h /\
    heightCallbacks (world h1) =
      match _removeCallbackFunc (this h) with
      | Some old => filter (fun r => negb (reg_handle r =? old)) (heightCallbacks (world h))
      | None => heightCallbacks (world h)
      end ++ [{| reg_handle := nextRef (world h); reg_owner := self (this h);
                 reg_cartographic := cartesianToCartographic (ellipsoid g) p;
                 reg_ellipsoid := ellipsoid g |}].
Proof.
  intros Hlive (Hmode & Hpos & Hnz) Hmiss Hglobe.
  open_heap h. subst. js_unfold. simpl.
  rewrite Hmode. rewrite Hpos. simpl. rewrite Hnz, Hmiss. simpl.
  rewrite clone_id.
  destruct _removeCallbackFunc0 as [old | ]; simpl;
    destruct (getHeight g _) eqn:Hheight; simpl;
    eexists; (split; [apply f_equal2; [ | reflexivity]; reflexivity | ]); simpl;
    unfold registrations, notifications, same_configuration; simpl;
    rewrite ?Hheight, ?filter_app, ?length_app; simpl;
    repeat split; lia.
Qed.

(** What the clamping recomputation leaves of a live instance: the cached
    position and normal as they were, and the height it resolved. *)
Lemma updateClamping_fields (h : Heap) :
  destroyed (this h) = false ->
  fst (_updateClamping h) = Normal tt /\
  destroyed (this (snd (_updateClamping h))) = false /\
  same_configuration (this h) (this (snd (_updateClamping h))) /\
  _position (this (snd (_updateClamping h))) = _position (this h) /\
  _normal (this (snd (_updateClamping h))) = _normal (this h) /\
  globe (world (snd (_updateClamping h))) = globe (world h) /\
  _terrainHeight (this (snd (_updateClamping h))) =
    match globe (world h) with
    | Some g =>
        match getHeight g (cartesianToCartographic (ellipsoid g) (_position (this h))) with
        | Some height => height
        | None => 0%float
        end
    | None => 0%float
    end.
Proof.
  intros Hlive. open_heap h. subst. js_unfold. unfold same_configuration.
  destruct globe0 as [g | ]; simpl.
  - destruct _removeCallbackFunc0 as [old | ]; simpl;
      destruct (getHeight g _) eqn:Hheight; simpl; rewrite ?Hheight; repeat split.
  - repeat split.
Qed.

(** X2.  Over any sequence of evaluations, scene events, refinement
    callbacks, changes of globe and calls of [destroy] from its
    construction, each of the instance's two listeners is taken off its
    event once if [destroy] is among them, however many times, and not at
    all otherwise; and it is on its event exactly when [destroy] is not
    among them. *)
Theorem subscriptions_released_once
    (scene : option Ref) (height extrudedHeight : option HeightSource)
    (getPosition : option PositionFunction) (w w' : World)
    (s : TerrainOffsetProperty) (acts : list Action) (e : SceneEvent) :
  construct scene height extrudedHeight getPosition w = (Normal s, w') ->
  let h0 := {| world := w'; this := s |} in
  let h := run acts h0 in
  releases e (listenerOf e s) h =
    releases e (listenerOf e s) h0 + (if existsb isDestroy acts then 1 else 0) /\
  subscribed e h = negb (existsb isDestroy acts).
Proof.
  intros Hnew h0 h.
  destruct (run_kept acts (construct_kept _ _ _ _ _ Hnew)) as (Hsub & Hrel & _).
  pose proof (run_destroyed acts h0) as Hd.
  simpl in Hd. rewrite (constructed_live _ _ _ _ _ Hnew) in Hd. simpl in Hd.
  fold h0 h in Hsub, Hrel, Hd. rewrite <- Hd.
  split; [exact (Hrel e) | exact (Hsub e)].
Qed.

(** X3.  Over any such sequence, every height-refinement registration
    issued since the construction is either cancelled or the one still
    pending; once [destroy] is among the actions none is pending and every
    registration issued has been cancelled. *)
Theorem registrations_accounted_for
    (scene : option Ref) (height extrudedHeight : option HeightSource)
    (getPosition : option PositionFunction) (w w' : World)
    (s : TerrainOffsetProperty) (acts : list Action) :
  owned (nextRef w) (heightCallbacks w) = [] ->
  construct scene height extrudedHeight getPosition w = (Normal s, w') ->
  let h0 := {| world := w'; this := s |} in
  let h := run acts h0 in
  registrations h + cancellations h0 =
    registrations h0 + cancellations h + length (pending h) /\
  (existsb isDestroy acts = true ->
   pending h = [] /\
   registrations h + cancellations h0 = registrations h0 + cancellations h).
Proof.
  intros Hnone Hnew h0 h.
  destruct (run_accounted acts (construct_accounted _ _ _ _ _ Hnone Hnew))
    as (Hown & Hbal).
  fold h0 h in Hown, Hbal.
  split; [exact Hbal | ].
  intros Hdestroy.
  pose proof (run_destroyed acts h0) as Hd. fold h in Hd.
  rewrite Hdestroy, orb_true_r in Hd.
  unfold owns_what_it_keeps in Hown. rewrite Hd in Hown.
  rewrite Hown in Hbal. simpl in Hbal.
  split; [exact Hown | lia].
Qed.

Lemma nothing_pending_nothing_held (h : Heap) (k : Ref) :
  pending h = [] -> holds h k = false.
Proof.
  unfold pending, holds, owned. intros Hnone.
  induction (heightCallbacks (world h)) as [ | r l IH]; simpl in *; [reflexivity | ].
  destruct (reg_owner r =? self (this h)) eqn:Howner; simpl in Hnone;
    [discriminate | ].
  destruct (reg_handle r =? k); [exact Howner | exact (IH Hnone)].
Qed.

(** X4.  Once [destroy] has been called, nothing reaches the instance any
    more: [getValue] and [destroy] throw a DeveloperError, the two scene
    events and every refinement callback return without effect, and each of
    them leaves the instance and the scene exactly as they were. *)
Theorem destroyed_instance_is_inert
    (scene : option Ref) (height extrudedHeight : option HeightSource)
    (getPosition : option PositionFunction) (w w' : World)
    (s : TerrainOffsetProperty) (acts : list Action) (a : Action) :
  owned (nextRef w) (heightCallbacks w) = [] ->
  construct scene height extrudedHeight getPosition w = (Normal s, w') ->
  existsb isDestroy acts = true ->
  let h := run acts {| world := w'; this := s |} in
  match a with
  | GetValue _ _ | Destroy => step a h = (Throw DeveloperError, h)
  | RaiseSceneEvent _ | HeightCallback _ _ => step a h = (Normal tt, h)
  | SetGlobe g => this (snd (step a h)) = this h
  end.
Proof.
  intros Hnone Hnew Hdestroy h.
  destruct (run_kept acts (construct_kept _ _ _ _ _ Hnew)) as (Hsub & _ & _).
  destruct (run_accounted acts (construct_accounted _ _ _ _ _ Hnone Hnew))
    as (Hown & _).
  pose proof (run_destroyed acts {| world := w'; this := s |}) as Hd.
  fold h in Hsub, Hown, Hd. rewrite Hdestroy, orb_true_r in Hd.
  unfold owns_what_it_keeps in Hown. rewrite Hd in Hown.
  clearbody h.
  destruct a as [time result | e | k q | g | ]; simpl.
  - unfold bind, method, throwOnDestroyed, throw. rewrite Hd. reflexivity.
  - specialize (Hsub e). rewrite Hd in Hsub.
    unfold raiseSceneEvent, bind, getThis, getWorld, ret.
    unfold subscribed, listenerOf in Hsub. rewrite Hsub. reflexivity.
  - pose proof (nothing_pending_nothing_held h k Hown) as Hheld.
    unfold holds in Hheld.
    unfold heightCallback, updateFunction, bind, getWorld, getThis, ret.
    destruct (find _ _) as [r | ]; [ | reflexivity].
    rewrite Hheld. reflexivity.
  - reflexivity.
  - unfold method, throwOnDestroyed, throw. rewrite Hd. reflexivity.
Qed.

(** X5.  As long as [destroy] has not been called, raising either scene
    event runs the clamping recomputation, whatever the cached position is:
    it returns normally, leaves the cached position and normal as they
    were, and puts the cached terrain height to the best-effort height at
    the cached position, or to 0 when that is not resident or no globe is
    attached. *)
Theorem scene_event_forces_recomputation
    (scene : option Ref) (height extrudedHeight : option HeightSource)
    (getPosition : option PositionFunction) (w w' : World)
    (s : TerrainOffsetProperty) (acts : list Action) (e : SceneEvent) :
  construct scene height extrudedHeight getPosition w = (Normal s, w') ->
  existsb isDestroy acts = false ->
  let h := run acts {| world := w'; this := s |} in
  let h' := snd (raiseSceneEvent e h) in
  raiseSceneEvent e h = _updateClamping h /\
  fst (raiseSceneEvent e h) = Normal tt /\
  _position (this h') = _position (this h) /\
  _normal (this h') = _normal (this h) /\
  _terrainHeight (this h') =
    match globe (world h) with
    | Some g =>
        match getHeight g (cartesianToCartographic (ellipsoid g) (_position (this h))) with
        | Some height => height
        | None => 0%float
        end
    | None => 0%float
    end.
Proof.
  intros Hnew Hdestroy h h'.
  destruct (run_kept acts (construct_kept _ _ _ _ _ Hnew)) as (Hsub & _ & _).
  pose proof (run_destroyed acts {| world := w'; this := s |}) as Hd.
  fold h in Hsub, Hd.
  simpl in Hd. rewrite (constructed_live _ _ _ _ _ Hnew), Hdestroy in Hd.
  simpl in Hd. clearbody h.
  assert (Hrun : raiseSceneEvent e h = _updateClamping h).
  { specialize (Hsub e). rewrite Hd in Hsub.
    unfold raiseSceneEvent, bind, getThis, getWorld, ret, method.
    unfold subscribed, listenerOf in Hsub. rewrite Hsub. simpl.
    rewrite Hd. reflexivity. }
  unfold h'. rewrite Hrun.
  destruct (updateClamping_fields h Hd) as (Hok & _ & _ & Hposition & Hnormal & _ & Hheight).
  repeat split; assumption.
Qed.

(** ** Evaluations in sequence *)

Lemma repeated_getValue_hits (h1 : Heap) (time : JulianDate)
    (result : option Cartesian3.t) (p : Cartesian3.t) :
  destroyed (this h1) = false ->
  passesGuards (this h1) time p ->
  isFinite p = true ->
  _position (this h1) = p ->
  getValue time result h1 =
    (Cartesian3.multiplyByScalar (_normal (this h1)) (_terrainHeight (this h1)) result, h1).
Proof.
  intros Hlive Hguards Hfinite Hposition.
  apply (getValue_fast_path h1 result Hlive Hguards).
  rewrite Hposition. apply equalsEpsilon_refl. exact Hfinite.
Qed.

(** X6.  With a globe attached and a result given, an evaluation at a time
    when the position is finite, not the origin, and the mode asks for an
    offset returns normally, and evaluating again at that time, with a
    result, returns the same value; the second evaluation changes nothing,
    whether or not it is given a result: no further recomputation or
    registration. *)
Theorem getValue_again (h : Heap) (time : JulianDate) (p r1 r2 : Cartesian3.t) (g : Globe) :
  destroyed (this h) = false ->
  passesGuards (this h) time p ->
  isFinite p = true ->
  globe (world h) = Some g ->
  exists v h1,
    getValue time (Some r1) h = (Normal v, h1) /\
    getValue time (Some r2) h1 = (Normal v, h1) /\
    (forall result, snd (getValue time result h1) = h1).
Proof.
  intros Hlive Hguards Hfinite Hglobe.
  destruct (Cartesian3.equalsEpsilon (_position (this h)) p CesiumMath.EPSILON10) eqn:Hhit.
  - eexists. exists h. split; [ | split].
    + exact (getValue_fast_path h (Some r1) Hlive Hguards Hhit).
    + exact (getValue_fast_path h (Some r2) Hlive Hguards Hhit).
    + intros result. rewrite (getValue_fast_path h result Hlive Hguards Hhit). reflexivity.
  - destruct (getValue_slow_path h (Some r1) Hlive Hguards Hhit Hglobe)
      as (h1 & Hrun & Hlive1 & Hcfg & Hposition & _).
    pose proof (passesGuards_configuration Hcfg Hguards) as Hguards1.
    eexists. exists h1. split; [exact Hrun | split].
    + exact (repeated_getValue_hits h1 (Some r2) Hlive1 Hguards1 Hfinite Hposition).
    + intros result.
      rewrite (repeated_getValue_hits h1 result Hlive1 Hguards1 Hfinite Hposition).
      reflexivity.
Qed.

Lemma noOffset_configuration (s s' : TerrainOffsetProperty) (time : JulianDate) :
  same_configuration s s' -> noOffset s' time = noOffset s time.
Proof.
  intros (_ & _ & Hh & He & _).
  unfold noOffset, heightReferenceAt, extrudedHeightReferenceAt.
  rewrite Hh, He. reflexivity.
Qed.

(** X7.  When the position function yields a position with a NaN component
    at a time the mode asks for an offset, no cached position matches it:
    with a globe attached every evaluation at that time, with or without a
    result, takes the slow path and issues a new height-refinement
    registration, so that [n] evaluations in a row issue [n]. *)
Theorem nan_position_registers_every_time
    (n : nat) (h : Heap) (time : JulianDate) (result : option Cartesian3.t)
    (p : Cartesian3.t) (g : Globe) :
  destroyed (this h) = false ->
  noOffset (this h) time = false ->
  _getPosition (this h) time = Some p ->
  hasNaN p = true ->
  globe (world h) = Some g ->
  registrations (run (repeat (GetValue time result) n) h) = registrations h + n.
Proof.
  intros Hlive Hmode Hpos Hnan Hglobe.
  revert h Hlive Hmode Hpos Hglobe.
  induction n as [ | n IH]; intros h Hlive Hmode Hpos Hglobe; simpl; [lia | ].
  destruct (hasNaN_never_equal (_position (this h)) p Hnan) as [Hnz Hmiss].
  assert (Hguards : passesGuards (this h) time p) by (repeat split; assumption).
  destruct (getValue_slow_path h result Hlive Hguards Hmiss Hglobe)
    as (h1 & Hrun & Hlive1 & Hcfg & _ & _ & _ & Hglobe1 & _ & _ & Hreg & _).
  assert (Hstep : snd ((method (getValue time result) ;; ret tt) h) = h1).
  { unfold bind, method, ret. rewrite Hlive, Hrun.
    destruct (Cartesian3.multiplyByScalar _ _ result); reflexivity. }
  rewrite Hstep.
  destruct (passesGuards_configuration Hcfg Hguards) as (Hmode1 & Hpos1 & _).
  rewrite (IH h1 Hlive1 Hmode1 Hpos1 Hglobe1), Hreg. lia.
Qed.

Lemma find_fresh (k : Ref) (l : list Registration) (r : Registration) :
  Forall (fun r' => reg_handle r' < k) l ->
  reg_handle r = k ->
  find (fun r' => reg_handle r' =? k) (l ++ [r]) = Some r.
Proof.
  intros Hfresh Hr. induction Hfresh as [ | r' l Hlt _ IH]; simpl.
  - rewrite Hr, Nat.eqb_refl. reflexivity.
  - destruct (reg_handle r' =? k) eqn:Hk; [ | exact IH].
    apply Nat.eqb_eq in Hk. lia.
Qed.

Lemma Forall_filter {A : Type} (P : A -> Prop) (f : A -> bool) (l : list A) :
  Forall P l -> Forall P (filter f l).
Proof.
  intros H. induction H as [ | a l Ha _ IH]; simpl; [constructor | ].
  destruct (f a); [constructor; assumption | assumption].
Qed.

(** X8.  After an evaluation, with or without a result, that took the slow
    path for a finite position with a globe attached, the refinement
    callback of the registration it issued stores the height of the clamped
    position it is given and raises one notification, and the next
    evaluation at that time, given a result, returns the surface normal at
    the position times that refined height. *)
Theorem refined_height_is_returned
    (h : Heap) (time : JulianDate) (result : option Cartesian3.t)
    (p q r : Cartesian3.t) (g : Globe) :
  destroyed (this h) = false ->
  passesGuards (this h) time p ->
  Cartesian3.equalsEpsilon (_position (this h)) p CesiumMath.EPSILON10 = false ->
  isFinite p = true ->
  globe (world h) = Some g ->
  fresh_handles (world h) ->
  let h1 := snd (getValue time result h) in
  let h2 := snd (heightCallback (nextRef (world h)) q h1) in
  notifications h2 = S (notifications h1) /\
  getValue time (Some r) h2 =
    (Normal (Cartesian3.scaled
               (geodeticSurfaceNormal (ellipsoid g) p)
               (Cartographic.height (cartesianToCartographic (ellipsoid g) q))), h2).
Proof.
  intros Hlive Hguards Hmiss Hfinite Hglobe Hfresh h1 h2.
  destruct (getValue_slow_path h result Hlive Hguards Hmiss Hglobe)
    as (h1' & Hrun & Hlive1 & Hcfg & Hposition & Hnormal & _ & _ & _ & _ & _ & _ & Hcallbacks).
  assert (Hh1 : h1 = h1') by (unfold h1; rewrite Hrun; reflexivity).
  clearbody h1. subst h1'.
  set (r0 := {| reg_handle := nextRef (world h); reg_owner := self (this h);
                reg_cartographic := cartesianToCartographic (ellipsoid g) p;
                reg_ellipsoid := ellipsoid g |}) in *.
  assert (Hfind : find (fun r' => reg_handle r' =? nextRef (world h))
                    (heightCallbacks (world h1)) = Some r0).
  { rewrite Hcallbacks. apply find_fresh; [ | reflexivity].
    unfold fresh_handles in Hfresh.
    destruct (_removeCallbackFunc (this h)); [apply Forall_filter | ]; exact Hfresh. }
  assert (Hself : self (this h1) = self (this h)) by (destruct Hcfg as (Hs & _); exact Hs).
  assert (Hh2 : h2 = with_world (log (DefinitionChanged (self (this h1))) (world h1))
                       (with_this (set_terrainHeight
                                     (Cartographic.height
                                        (cartesianToCartographic (ellipsoid g) q))
                                     (this h1)) h1)).
  { unfold h2, heightCallback, updateFunction, bind, getWorld, getThis, ret,
      modifyThis, modifyWorld.
    rewrite Hfind. simpl. rewrite Hself, Nat.eqb_refl. reflexivity. }
  clearbody h2. subst h2.
  split.
  - unfold notifications. simpl. rewrite count_snoc. simpl.
    rewrite Nat.eqb_refl. lia.
  - rewrite <- Hnormal.
    match goal with
    | |- getValue time _ ?H2 = _ =>
        apply (@repeated_getValue_hits H2 time (Some r) p)
    end.
    + exact Hlive1.
    + apply (passesGuards_configuration (s := this h)); [ | exact Hguards].
      destruct Hcfg as (H1 & H2 & H3 & H4 & H5 & H6 & H7).
      repeat split; assumption.
    + exact Hfinite.
    + exact Hposition.
Qed.

Lemma raiseSceneEvent_subscribed (e : SceneEvent) (h : Heap) :
  subscribed e h = true ->
  destroyed (this h) = false ->
  raiseSceneEvent e h = _updateClamping h.
Proof.
  intros Hsub Hlive.
  unfold raiseSceneEvent, bind, getThis, getWorld, ret, method.
  unfold subscribed, listenerOf in Hsub. rewrite Hsub. simpl.
  rewrite Hlive. reflexivity.
Qed.

(** X10.  After [getValue] has thrown for want of a globe, the cache holds
    the requested position with the normal of the position cached before
    and a height of 0.  Asked again at that time with a result, for a
    finite position, [getValue] no longer throws: it returns that earlier
    normal times 0.  And once a globe is attached and a scene event has
    resolved a height for the position, it returns, given a result, the
    earlier normal times that height, not the surface normal at the
    position. *)
Theorem evaluation_after_throw_uses_stale_normal
    (h : Heap) (time : JulianDate) (result : option Cartesian3.t) (p r : Cartesian3.t) :
  destroyed (this h) = false ->
  passesGuards (this h) time p ->
  Cartesian3.equalsEpsilon (_position (this h)) p CesiumMath.EPSILON10 = false ->
  isFinite p = true ->
  globe (world h) = None ->
  let h1 := snd (getValue time result h) in
  fst (getValue time result h) = Throw TypeError /\
  _position (this h1) = p /\
  getValue time (Some r) h1 =
    (Normal (Cartesian3.scaled (_normal (this h)) 0%float), h1) /\
  (forall (g : Globe) (e : SceneEvent),
      subscribed e h = true ->
      let h2 := snd (raiseSceneEvent e (snd (step (SetGlobe (Some g)) h1))) in
      getValue time (Some r) h2 =
        (Normal (Cartesian3.scaled (_normal (this h))
                   match getHeight g (cartesianToCartographic (ellipsoid g) p) with
                   | Some height => height
                   | None => 0%float
                   end), h2)).
Proof.
  intros Hlive Hguards Hmiss Hfinite Hglobe h1.
  pose proof (getValue_without_globe h result Hlive Hguards Hmiss Hglobe) as Hrun.
  assert (Hh1 : h1 = with_this (set_terrainHeight 0%float (set_position p (this h))) h)
    by (unfold h1; rewrite Hrun; reflexivity).
  clearbody h1. subst h1. rewrite Hrun.
  assert (Hcfg : same_configuration (this h) (set_terrainHeight 0%float (set_position p (this h))))
    by (repeat split).
  split; [reflexivity | split; [reflexivity | split]].
  - match goal with
    | |- getValue time _ ?H1 = _ =>
        apply (@repeated_getValue_hits H1 time (Some r) p)
    end.
    + exact Hlive.
    + exact (passesGuards_configuration Hcfg Hguards).
    + exact Hfinite.
    + reflexivity.
  - intros g e Hsub h2.
    set (h1' := snd (step (SetGlobe (Some g))
                       (with_this (set_terrainHeight 0%float (set_position p (this h))) h))) in *.
    assert (Hlive1 : destroyed (this h1') = false) by exact Hlive.
    assert (Hsub1 : subscribed e h1' = true) by exact Hsub.
    assert (Hh2 : h2 = snd (_updateClamping h1'))
      by (unfold h2; rewrite (raiseSceneEvent_subscribed e h1' Hsub1 Hlive1); reflexivity).
    destruct (updateClamping_fields h1' Hlive1)
      as (_ & Hlive2 & Hcfg2 & Hposition2 & Hnormal2 & _ & Hheight2).
    rewrite <- Hh2 in Hlive2, Hcfg2, Hposition2, Hnormal2, Hheight2.
    clearbody h2.
    assert (Hrun2 := @repeated_getValue_hits h2 time (Some r) p Hlive2).
    rewrite Hnormal2, Hheight2 in Hrun2. simpl in Hrun2.
    apply Hrun2.
    + apply (passesGuards_configuration (s := this h)); [ | exact Hguards].
      destruct Hcfg2 as (H1 & H2 & H3 & H4 & H5 & H6 & H7).
      repeat split; assumption.
    + exact Hfinite.
    + exact Hposition2.
Qed.


(** X12.  Whatever else has happened to an instance since its
    construction, [isDestroyed] returns true exactly when [destroy] has
    been called, and asking changes nothing. *)
Theorem isDestroyed_reports_destroy
    (scene : option Ref) (height extrudedHeight : option HeightSource)
    (getPosition : option PositionFunction) (w w' : World)
    (s : TerrainOffsetProperty) (acts : list Action) :
  construct scene height extrudedHeight getPosition w = (Normal s, w') ->
  let h := run acts {| world := w'; this := s |} in
  isDestroyed h = (Normal (existsb isDestroy acts), h).
Proof.
  intros Hnew h.
  pose proof (run_destroyed acts {| world := w'; this := s |}) as Hd.
  simpl in Hd. rewrite (constructed_live _ _ _ _ _ Hnew) in Hd. simpl in Hd.
  fold h in Hd. clearbody h.
  unfold isDestroyed. rewrite Hd.
  destruct (existsb isDestroy acts); reflexivity.
Qed.

(** ** The further properties at sample inputs *)

Lemma constructedWith_by_constructor (f : PositionFunction) (g : option Globe) :
  construct (Some 100) (Some Sample.switching) (Some Sample.noReference)
    (Some f) (Sample.emptyWorld g) =
  (Normal (this (Sample.constructedWith f g)), world (Sample.constructedWith f g)).
Proof. reflexivity. Qed.

(** X2 along the sample life: listener 1 was taken off
    [terrainProviderChanged] once although [destroy] was called twice. *)
Lemma subscriptions_released_once_witness :
  releases terrainProviderChanged 1
    (run Sample.life (Sample.constructed (Some Sample.globe5))) = 1 /\
  subscribed terrainProviderChanged
    (run Sample.life (Sample.constructed (Some Sample.globe5))) = false.
Proof.
  exact (@subscriptions_released_once
           (Some 100) (Some Sample.switching) (Some Sample.noReference)
           (Some Sample.drifting) (Sample.emptyWorld (Some Sample.globe5)) _ _
           Sample.life terrainProviderChanged
           (constructed_by_constructor (Some Sample.globe5))).
Defined.

(** X3 along the sample life: three registrations were issued, three
    cancelled, none is pending. *)
Lemma registrations_accounted_for_witness :
  registrations (run Sample.life (Sample.constructed (Some Sample.globe5))) = 3 /\
  pending (run Sample.life (Sample.constructed (Some Sample.globe5))) = [] /\
  registrations (run Sample.life (Sample.constructed (Some Sample.globe5))) + 0 =
    0 + cancellations (run Sample.life (Sample.constructed (Some Sample.globe5))).
Proof.
  split; [reflexivity | ].
  exact (proj2 (@registrations_accounted_for
                  (Some 100) (Some Sample.switching) (Some Sample.noReference)
                  (Some Sample.drifting) (Sample.emptyWorld (Some Sample.globe5)) _ _
                  Sample.life eq_refl
                  (constructed_by_constructor (Some Sample.globe5))) eq_refl).
Defined.

(** X4 after the sample life: an evaluation throws and changes nothing. *)
Lemma destroyed_instance_is_inert_witness :
  step (GetValue Sample.epoch Sample.scratch)
    (run Sample.life (Sample.constructed (Some Sample.globe5))) =
  (Throw DeveloperError, run Sample.life (Sample.constructed (Some Sample.globe5))).
Proof.
  exact (@destroyed_instance_is_inert
           (Some 100) (Some Sample.switching) (Some Sample.noReference)
           (Some Sample.drifting) (Sample.emptyWorld (Some Sample.globe5)) _ _
           Sample.life (GetValue Sample.epoch Sample.scratch) eq_refl
           (constructed_by_constructor (Some Sample.globe5)) eq_refl).
Defined.

(** X5 after the sample youth: the morph event keeps the cached position
    (1, 0, 0) and takes the cached height from 5 to 0, the new globe having
    no terrain resident. *)
Lemma scene_event_forces_recomputation_witness :
  _terrainHeight (this (run Sample.youth (Sample.constructed (Some Sample.globe5)))) = 5%float /\
  _position
    (this (snd (raiseSceneEvent morphComplete
                  (run Sample.youth (Sample.constructed (Some Sample.globe5)))))) =
    Cartesian3.fromElements 1 0 0 /\
  _terrainHeight
    (this (snd (raiseSceneEvent morphComplete
                  (run Sample.youth (Sample.constructed (Some Sample.globe5)))))) =
    0%float.
Proof.
  split; [reflexivity | ].
  destruct (@scene_event_forces_recomputation
              (Some 100) (Some Sample.switching) (Some Sample.noReference)
              (Some Sample.drifting) (Sample.emptyWorld (Some Sample.globe5)) _ _
              Sample.youth morphComplete
              (constructed_by_constructor (Some Sample.globe5)) eq_refl)
    as (_ & _ & Hposition & _ & Hheight).
  split; [exact Hposition | exact Hheight].
Defined.

(** X6 on the new sample instance at the epoch, with a result given both
    times. *)
Lemma getValue_again_witness :
  exists v h1,
    getValue Sample.epoch Sample.scratch (Sample.constructed (Some Sample.globe5)) =
      (Normal v, h1) /\
    getValue Sample.epoch Sample.scratch h1 = (Normal v, h1) /\
    (forall result, snd (getValue Sample.epoch result h1) = h1).
Proof.
  assert (Hguards : passesGuards (this (Sample.constructed (Some Sample.globe5)))
                      Sample.epoch (Cartesian3.fromElements 1 0 0)).
  { repeat split. }
  exact (@getValue_again (Sample.constructed (Some Sample.globe5)) Sample.epoch
           (Cartesian3.fromElements 1 0 0)
           (Cartesian3.fromElements 9 9 9) (Cartesian3.fromElements 9 9 9) Sample.globe5
           eq_refl Hguards eq_refl eq_refl).
Defined.

(** X7 on a new instance whose position is lost: three evaluations, three
    registrations. *)
Lemma nan_position_registers_every_time_witness :
  registrations
    (run [GetValue Sample.epoch Sample.scratch; GetValue Sample.epoch Sample.scratch;
          GetValue Sample.epoch Sample.scratch]
       (Sample.constructedWith Sample.lost (Some Sample.globe5))) =
  registrations (Sample.constructedWith Sample.lost (Some Sample.globe5)) + 3.
Proof.
  exact (@nan_position_registers_every_time 3
           (Sample.constructedWith Sample.lost (Some Sample.globe5))
           Sample.epoch Sample.scratch (Cartesian3.fromElements nan 0 0) Sample.globe5
           eq_refl eq_refl eq_refl eq_refl eq_refl).
Defined.

(** X8 on the new sample instance: the callback reports (8, 0, 0), of
    height 7, and the next evaluation returns (7, 0, 0). *)
Lemma refined_height_is_returned_witness :
  getValue Sample.epoch Sample.scratch
    (snd (heightCallback 3 (Cartesian3.fromElements 8 0 0) Sample.evaluated)) =
  (Normal (Cartesian3.fromElements 7 0 0),
   snd (heightCallback 3 (Cartesian3.fromElements 8 0 0) Sample.evaluated)).
Proof.
  assert (Hguards : passesGuards (this (Sample.constructed (Some Sample.globe5)))
                      Sample.epoch (Cartesian3.fromElements 1 0 0)).
  { repeat split. }
  assert (Hfresh : fresh_handles (world (Sample.constructed (Some Sample.globe5)))).
  { constructor. }
  exact (proj2 (@refined_height_is_returned
                  (Sample.constructed (Some Sample.globe5)) Sample.epoch Sample.scratch
                  (Cartesian3.fromElements 1 0 0) (Cartesian3.fromElements 8 0 0)
                  (Cartesian3.fromElements 9 9 9)
                  Sample.globe5 eq_refl Hguards eq_refl eq_refl eq_refl Hfresh)).
Defined.

(** X10 on the new sample instance with no globe: after the throw the
    evaluation returns (0, 0, 0) times 0, and once [globe5] is attached and
    the terrain event has resolved a height of 5, it returns (0, 0, 0) times
    5 where the surface normal at (1, 0, 0) is (1, 0, 0). *)
Lemma evaluation_after_throw_uses_stale_normal_witness :
  fst (getValue Sample.epoch Sample.scratch (Sample.constructed None)) = Throw TypeError /\
  fst (getValue Sample.epoch Sample.scratch
         (snd (raiseSceneEvent terrainProviderChanged
                 (snd (step (SetGlobe (Some Sample.globe5))
                         (snd (getValue Sample.epoch Sample.scratch
                                 (Sample.constructed None)))))))) =
    Normal (Cartesian3.scaled Cartesian3.ZERO 5%float) /\
  geodeticSurfaceNormal (ellipsoid Sample.globe5) (Cartesian3.fromElements 1 0 0) =
    Cartesian3.fromElements 1 0 0.
Proof.
  assert (Hguards : passesGuards (this (Sample.constructed None))
                      Sample.epoch (Cartesian3.fromElements 1 0 0)).
  { repeat split. }
  destruct (@evaluation_after_throw_uses_stale_normal
              (Sample.constructed None) Sample.epoch Sample.scratch
              (Cartesian3.fromElements 1 0 0) (Cartesian3.fromElements 9 9 9)
              eq_refl Hguards eq_refl eq_refl eq_refl)
    as (Hthrow & _ & _ & Hlater).
  split; [exact Hthrow | split; [ | reflexivity]].
  exact (f_equal fst (Hlater Sample.globe5 terrainProviderChanged eq_refl)).
Defined.

(** X12 along the sample youth and the sample life. *)
Lemma isDestroyed_reports_destroy_witness :
  fst (isDestroyed (run Sample.youth (Sample.constructed (Some Sample.globe5)))) =
    Normal false /\
  fst (isDestroyed (run Sample.life (Sample.constructed (Some Sample.globe5)))) =
    Normal true.
Proof.
  split.
  - exact (f_equal fst
             (@isDestroyed_reports_destroy
                (Some 100) (Some Sample.switching) (Some Sample.noReference)
                (Some Sample.drifting) (Sample.emptyWorld (Some Sample.globe5)) _ _
                Sample.youth (constructed_by_constructor (Some Sample.globe5)))).
  - exact (f_equal fst
             (@isDestroyed_reports_destroy
                (Some 100) (Some Sample.switching) (Some Sample.noReference)
                (Some Sample.drifting) (Sample.emptyWorld (Some Sample.globe5)) _ _
                Sample.life (constructed_by_constructor (Some Sample.globe5)))).
Defined.
